(** * S3-Upload-Proxy: request classification, policy gate, namespace
      rewriting, completion detection, metadata lookup and event publishing.

    A shallow embedding of [proxy.go] (the request pipeline of the proxy)
    and of the messenger part of [main.go] (the AMQP publisher).

    Go strings are byte strings: they are [string] here, one [ascii] per
    byte.  Go's [int] and [int64] values are [Z].  Interfaces of the proxy
    ([Authenticator], [Messenger]) and the calls that leave the process
    (backend round trip, list-objects, broker) are functions held in
    records, so that a run of the handler can be evaluated on concrete
    inputs. *)

From Stdlib Require Import String Ascii List ZArith Bool Lia DecimalString DecimalN.
Import ListNotations.
Local Open Scope list_scope.
Local Open Scope string_scope.

(* ================================================================== *)
(** * Go's [strings] package, as far as the proxy uses it             *)
(* ================================================================== *)

Module Strings.

(** [strings.HasPrefix(s, prefix)]. *)
Fixpoint HasPrefix (s prefix : string) : bool :=
  match prefix, s with
  | EmptyString, _ => true
  | String c p', String d s' => Ascii.eqb c d && HasPrefix s' p'
  | String _ _, EmptyString => false
  end.

(** [strings.HasSuffix(s, suffix)]: some tail of [s] is [suffix]. *)
Fixpoint HasSuffix (s suffix : string) : bool :=
  String.eqb s suffix ||
  match s with
  | EmptyString => false
  | String _ s' => HasSuffix s' suffix
  end.

(** [strings.Contains(s, substr)]: [substr] starts at some index. *)
Fixpoint Contains (s substr : string) : bool :=
  HasPrefix s substr ||
  match s with
  | EmptyString => false
  | String _ s' => Contains s' substr
  end.

(** [s[n:]] for [n <= len(s)]. *)
Fixpoint drop (n : nat) (s : string) : string :=
  match n, s with
  | O, _ => s
  | S n', String _ s' => drop n' s'
  | S _, EmptyString => EmptyString
  end.

(** [strings.Index] followed by the two slices around the match:
    [Cut s sep = Some (s[:i], s[i+len(sep):])] for the first index [i]
    at which [sep] occurs, [None] when [strings.Index] returns -1. *)
Fixpoint Cut (s sep : string) : option (string * string) :=
  if HasPrefix s sep then Some (EmptyString, drop (String.length sep) s)
  else match s with
       | EmptyString => None
       | String c s' =>
           match Cut s' sep with
           | Some (before, after) => Some (String c before, after)
           | None => None
           end
       end.

(** The loop of [genSplit] for a non-empty separator; [fuel] bounds the
    number of pieces by the length of the input. *)
Fixpoint splitLoop (fuel : nat) (s sep : string) : list string :=
  match fuel with
  | O => [s]
  | S fuel' =>
      match Cut s sep with
      | None => [s]
      | Some (before, after) => before :: splitLoop fuel' after sep
      end
  end.

(** [explode]: one piece per byte (the proxy never splits on the empty
    separator; Go cuts at UTF-8 sequences there). *)
Fixpoint explode (s : string) : list string :=
  match s with
  | EmptyString => []
  | String c s' => String c EmptyString :: explode s'
  end.

(** [strings.Split(s, sep)]. *)
Definition Split (s sep : string) : list string :=
  match sep with
  | EmptyString => explode s
  | _ => splitLoop (String.length s) s sep
  end.

(** [strings.SplitN(s, sep, 2)] for a non-empty [sep]. *)
Definition SplitN2 (s sep : string) : list string :=
  match Cut s sep with
  | None => [s]
  | Some (before, after) => [before; after]
  end.

(** [strings.Join(elems, sep)]. *)
Fixpoint Join (elems : list string) (sep : string) : string :=
  match elems with
  | [] => EmptyString
  | [x] => x
  | x :: rest => x ++ sep ++ Join rest sep
  end.

(** [strings.Replace(s, old, new, 1)]: the first occurrence only. *)
Definition Replace1 (s old new : string) : string :=
  match Cut s old with
  | None => s
  | Some (before, after) => before ++ new ++ after
  end.

(** [strings.ReplaceAll(s, old, new)] for a non-empty [old]: the
    non-overlapping occurrences, left to right. *)
Definition ReplaceAll (s old new : string) : string :=
  Join (Split s old) new.

End Strings.
Import Strings.

(* ================================================================== *)
(** * Requests, URLs and responses ([net/http], [net/url])            *)
(* ================================================================== *)

(** The request URL of a server-side request in origin form: no scheme,
    host, user info, opaque part or fragment.  [Path] is held in the form
    [EscapedPath] returns (for the paths of this service, letters, digits,
    [-._~] and [/], that is the path itself).  [ForceQuery] is set by the
    parser when the target ends in a bare [?]. *)
Record URL : Type := mkURL {
  Path : string;
  RawQuery : string;
  ForceQuery : bool
}.

(** [URL.String] on such a URL: the path, then [?] and the raw query
    when [ForceQuery] is set or the raw query is not empty. *)
Definition URL_String (u : URL) : string :=
  Path u ++
  (if ForceQuery u || negb (String.eqb (RawQuery u) "")
   then "?" ++ RawQuery u else "").

(** [http.Header]: canonical header name to its values. *)
Definition Header : Type := list (string * list string).

Record Request : Type := mkRequest {
  Method : string;
  Url : URL;
  ReqHeader : Header;
  Host : string;
  Body : string
}.

Record Response : Type := mkResponse {
  StatusCode : Z;
  RespHeader : Header;
  RespBody : string
}.

Definition MethodGet : string := "GET".
Definition MethodPut : string := "PUT".
Definition MethodPost : string := "POST".
Definition MethodDelete : string := "DELETE".

(* ================================================================== *)
(** * Request classifier                                              *)
(* ================================================================== *)

(** [type S3RequestType int] with its [iota] constants. *)
Definition S3RequestType : Type := Z.

Definition MakeBucket : S3RequestType := 0%Z.
Definition RemoveBucket : S3RequestType := 1%Z.
Definition List : S3RequestType := 2%Z.
Definition Put : S3RequestType := 3%Z.
Definition Get : S3RequestType := 4%Z.
Definition Delete : S3RequestType := 5%Z.
Definition AbortMultipart : S3RequestType := 6%Z.
Definition Policy : S3RequestType := 7%Z.
Definition Other : S3RequestType := 8%Z.

(** [Proxy.detectRequestType]; every test reads [r.URL.String()]. *)
Definition detectRequestType (r : Request) : S3RequestType :=
  let u := URL_String (Url r) in
  if String.eqb (Method r) MethodGet then
    if HasSuffix u "/" then Get
    else if Contains u "?acl" then Policy
    else List
  else if String.eqb (Method r) MethodDelete then
    if HasSuffix u "/" then RemoveBucket
    else if Contains u "uploadId" then AbortMultipart
    else Delete
  else if String.eqb (Method r) MethodPut then
    if HasSuffix u "/" then MakeBucket
    else if Contains u "?policy" then Policy
    else Put
  else Other.

(** The classifier as the specification words it, over the path and the
    query taken apart. *)
Definition classify_spec (method path query : string) : S3RequestType :=
  if String.eqb method "GET" then
    if HasSuffix path "/" then Get
    else if Contains query "acl" then Policy
    else List
  else if String.eqb method "DELETE" then
    if HasSuffix path "/" then RemoveBucket
    else if Contains query "uploadId" || Contains path "uploadId"
         then AbortMultipart
    else Delete
  else if String.eqb method "PUT" then
    if HasSuffix path "/" then MakeBucket
    else if Contains query "policy" then Policy
    else Put
  else Other.

(* ================================================================== *)
(** * The two username patterns ([regexp])                            *)
(* ================================================================== *)

Module Regexp.

(** The patterns of the proxy are sequences of a literal byte and of
    [[^c]+], the latter sometimes inside a capture group. *)
Inductive atom : Type :=
| Lit (c : ascii)        (* the byte c *)
| PlusNot (c : ascii).   (* [^c]+ , greedy *)

Inductive item : Type :=
| Plain (a : atom)
| Group (a : atom).      (* ( a ) *)

Definition Regexp : Type := list item.

Definition atom_of (i : item) : atom :=
  match i with Plain a => a | Group a => a end.

(** The non-empty prefixes of the leading run of bytes other than [c],
    the longest first, each with what follows it. *)
Fixpoint runs (c : ascii) (s : string) : list (string * string) :=
  match s with
  | EmptyString => []
  | String d s' =>
      if Ascii.eqb d c then []
      else (map (fun p => (String d (fst p), snd p)) (runs c s')
            ++ [(String d EmptyString, s')])%list
  end.

(** The ways an atom matches at the head of [s], in preference order. *)
Definition alternatives (a : atom) (s : string) : list (string * string) :=
  match a with
  | Lit c =>
      match s with
      | String d s' => if Ascii.eqb d c then [(String d EmptyString, s')] else []
      | EmptyString => []
      end
  | PlusNot c => runs c s
  end.

Fixpoint firstSome {A B : Type} (f : A -> option B) (l : list A) : option B :=
  match l with
  | [] => None
  | x :: l' => match f x with Some y => Some y | None => firstSome f l' end
  end.

(** Backtracking match of the whole pattern at the head of [s]: the
    matched text and the captured groups. *)
Fixpoint matchHere (re : Regexp) (s : string) : option (string * list string) :=
  match re with
  | [] => Some (EmptyString, [])
  | i :: re' =>
      firstSome
        (fun alt : string * string =>
           match matchHere re' (snd alt) with
           | Some (m, groups) =>
               Some (fst alt ++ m,
                     match i with
                     | Group _ => fst alt :: groups
                     | Plain _ => groups
                     end)
           | None => None
           end)
        (alternatives (atom_of i) s)
  end.

(** [Regexp.FindStringSubmatch]: the leftmost match, as the slice of
    the whole match followed by the groups; [None] is the nil slice. *)
Fixpoint FindStringSubmatch (re : Regexp) (s : string) : option (list string) :=
  match matchHere re s with
  | Some (m, groups) => Some (m :: groups)
  | None =>
      match s with
      | EmptyString => None
      | String _ s' => FindStringSubmatch re s'
      end
  end.

End Regexp.
Import Regexp.

Definition slash : ascii := "/"%char.

(** [regexp.MustCompile("/([^/]+)/")], the pattern of the rewriter. *)
Definition reRewriter : Regexp :=
  [Plain (Lit slash); Group (PlusNot slash); Plain (Lit slash)].

(** [regexp.MustCompile("/[^/]+/([^/]+)/")], the pattern of the event
    builder: the segment after the first one. *)
Definition reEvent : Regexp :=
  [Plain (Lit slash); Plain (PlusNot slash); Plain (Lit slash);
   Group (PlusNot slash); Plain (Lit slash)].

(* ================================================================== *)
(** * Outcomes of a run                                               *)
(* ================================================================== *)

(** How a piece of handler code ends: it returns a value, it panics (an
    index out of range, a nil dereference), it ends the process
    ([log.Fatal*] calls [os.Exit(1)]), or it waits for ever on a channel
    receive. *)
Inductive Res (A : Type) : Type :=
| Ret (a : A)
| Panic
| Exit
| Block.

Arguments Ret {A} a.
Arguments Panic {A}.
Arguments Exit {A}.
Arguments Block {A}.

(** [s[1]] on the slice [FindStringSubmatch] returned. *)
Definition index1 (s : option (list string)) : Res string :=
  match s with
  | Some (_ :: g :: _) => Ret g
  | _ => Panic
  end.

(** [error] values: only their presence and their text matter. *)
Definition error : Type := string.

(* ================================================================== *)
(** * Configuration and the proxy object                              *)
(* ================================================================== *)

(** Modelled from the spec: [S3Config], whose declaration is not in the
    sources.  It is the spec's BackendConfig (base URL, access key, secret
    key, bucket, region, optional CA certificate path), under the field
    names [proxy.go] reads. *)
Record S3Config : Type := mkS3Config {
  url : string;
  accessKey : string;
  secretKey : string;
  bucket : string;
  region : string;
  cacert : string
}.

(* ================================================================== *)
(** * Events and their JSON form ([main.go], [encoding/json])         *)
(* ================================================================== *)

(** [Checksum]: the algorithm tag and the digest. *)
Record Checksum : Type := mkChecksum {
  Type_ : string;     (* `json:"type"` *)
  Value : string      (* `json:"value"` *)
}.

(** [Event].  The field tagged [encoded_checksum] is declared in
    [main.go] with type [Checksum]; [proxy.go] fills it with the slice
    [[]interface{}{checksum}], and the record holds what [proxy.go]
    stores there. *)
Record Event : Type := mkEvent {
  Operation : string;                (* `json:"operation"` *)
  Username : string;                 (* `json:"user"` *)
  Filepath : string;                 (* `json:"filepath"` *)
  Filesize : Z;                      (* `json:"filesize"` *)
  EncodedChecksum : list Checksum    (* `json:"encoded_checksum"` *)
}.

(** JSON values, as [json.Marshal] lays them out (objects keep the order
    of the struct fields). *)
#[warnings="-register-all"] Inductive JSON : Type :=
| JString (s : string)
| JNumber (n : Z)
| JArray (elems : list JSON)
| JObject (fields : list (string * JSON)).

Definition Marshal_Checksum (c : Checksum) : JSON :=
  JObject [("type", JString (Type_ c)); ("value", JString (Value c))].

(** [json.Marshal(message)]; it has no error case on these field types. *)
Definition Marshal (e : Event) : JSON :=
  JObject [("operation", JString (Operation e));
           ("user", JString (Username e));
           ("filepath", JString (Filepath e));
           ("filesize", JNumber (Filesize e));
           ("encoded_checksum", JArray (map Marshal_Checksum (EncodedChecksum e)))].

(* ================================================================== *)
(** * Effects and the handler monad                                   *)
(* ================================================================== *)

(** [amqp.Publishing], with the fields [SendMessage] sets. *)
Record Publishing : Type := mkPublishing {
  ContentEncoding : string;
  ContentType : string;
  DeliveryMode : Z;
  CorrelationId : string;
  Priority : Z;
  PubBody : JSON
}.

Definition Transient : Z := 1.
Definition Persistent : Z := 2.

(** [amqp.Confirmation]. *)
Record Confirmation : Type := mkConfirmation {
  DeliveryTag : Z;
  Ack : bool
}.

(** The request [forwardToBackend] hands to the HTTP client. *)
Record Outbound : Type := mkOutbound {
  OutMethod : string;
  OutURL : string;
  OutHeader : Header;
  OutContentLength : Z;
  OutBody : string
}.

(** What a run does to the world outside the handler, in order. *)
Inductive Effect : Type :=
| EAuthenticate (r : Request)
| ERoundTrip (nr : Outbound)
| ENewSession
| EListObjectsV2 (bucketName : string) (maxKeys : Z) (prefix : string)
| ESendMessage (e : Event)
| EWriteHeader (code : Z)
| EHeaderAdd (key value : string)
| EWriteBody (body : string)
| ELogFatal (msg : string)
| EConfirm
| ENotifyPublish
| EPublish (exchangeName key : string) (mandatory immediate : bool) (msg : Publishing)
| EReceive (c : Confirmation).

(** A computation: the effects it had and how it ended. *)
Definition M (A : Type) : Type := (list Effect * Res A)%type.

Definition ret {A : Type} (a : A) : M A := ([], Ret a).

Definition bind {A B : Type} (m : M A) (f : A -> M B) : M B :=
  match m with
  | (t, Ret a) => let (t', r) := f a in ((t ++ t')%list, r)
  | (t, Panic) => (t, Panic)
  | (t, Exit) => (t, Exit)
  | (t, Block) => (t, Block)
  end.

Definition emit (e : Effect) : M unit := ([e], Ret tt).
Definition lift {A : Type} (r : Res A) : M A := ([], r).

(** [log.Fatalf] and [log.Fatalln]: the message, then [os.Exit(1)]. *)
Definition fatal {A : Type} (msg : string) : M A := ([ELogFatal msg], Exit).

Notation "x <- m ;; k" := (bind m (fun x => k))
  (at level 61, m at next level, right associativity).
Notation "m ;;; k" := (bind m (fun _ => k))
  (at level 61, right associativity).

Definition trace {A : Type} (m : M A) : list Effect := fst m.
Definition outcome {A : Type} (m : M A) : Res A := snd m.

(** Modelled from the spec: [Authenticator], whose declaration is not in
    the sources: [authenticate(request) -> error], as [proxy.go] calls it. *)
Definition Authenticator : Type := Request -> option error.

(** [Messenger], the interface of [main.go]: [SendMessage(message) error],
    with the effects the call has. *)
Definition Messenger : Type := Event -> M (option error).

(** [Proxy]. *)
Record Proxy : Type := mkProxy {
  s3 : S3Config;
  auth : Authenticator;
  messenger : Messenger
}.

(** [s3.Object], with the two fields [requestInfo] dereferences; both
    are pointers in the SDK. *)
Record Object : Type := mkObject {
  ETag : option string;
  Size : option Z
}.

(** What lies outside the process during one request. *)
Record World : Type := mkWorld {
  (** [s3signer.SignV4]: the header map after signing. *)
  SignV4 : Request -> string -> string -> string -> Header;
  (** [http.NewRequest] on a method and a URL. *)
  NewRequest : string -> string -> option error;
  (** [client.Do]. *)
  Do : Outbound -> Response + error;
  (** [session.NewSession] / [NewSessionWithOptions]. *)
  NewSession : option error;
  (** [svc.ListObjectsV2] on bucket, max keys and prefix: [Contents]. *)
  ListObjectsV2 : string -> Z -> string -> list Object + error;
  (** [io.Copy(w, s3response.Body)]. *)
  CopyError : option error
}.

(* ================================================================== *)
(** * The proxy ([proxy.go])                                          *)
(* ================================================================== *)

Definition setPath (r : Request) (path : string) : Request :=
  mkRequest (Method r)
            (mkURL path (RawQuery (Url r)) (ForceQuery (Url r)))
            (ReqHeader r) (Host r) (Body r).

Definition setPathQuery (r : Request) (path query : string) : Request :=
  mkRequest (Method r)
            (mkURL path query (ForceQuery (Url r)))
            (ReqHeader r) (Host r) (Body r).

(** [params[1]] on the slice [strings.Split] returned. *)
Definition params01 (params : list string) : Res (string * string) :=
  match params with
  | p0 :: p1 :: _ => Ret (p0, p1)
  | _ => Panic
  end.

(** [Proxy.prependBucketToHostPath]: the request after the rewrite (the
    Go code updates [r.URL] in place). *)
Definition prependBucketToHostPath (p : Proxy) (r : Request) : Res Request :=
  let bucket := bucket (s3 p) in
  match index1 (FindStringSubmatch reRewriter (Path (Url r))) with
  | Ret username =>
      if String.eqb (Method r) MethodGet
         && Contains (URL_String (Url r)) "?delimiter" then
        if Contains (RawQuery (Url r)) "&prefix" then
          match params01 (Split (RawQuery (Url r)) "&prefix=") with
          | Ret (p0, p1) =>
              Ret (setPathQuery r ("/" ++ bucket ++ "/")
                                (p0 ++ "&prefix=" ++ username ++ "%2F" ++ p1))
          | _ => Panic
          end
        else
          Ret (setPathQuery r ("/" ++ bucket ++ "/")
                            (RawQuery (Url r) ++ "&prefix=" ++ username ++ "%2F"))
      else if String.eqb (Method r) MethodGet
              && Contains (URL_String (Url r)) "?location" then
        Ret (setPath r ("/" ++ bucket ++ "/"))
      else if String.eqb (Method r) MethodPost
              || String.eqb (Method r) MethodPut then
        Ret (setPath r ("/" ++ bucket ++ Path (Url r)))
      else Ret r
  | _ => Panic
  end.

(** [Proxy.uploadFinishedSuccessfully]. *)
Definition uploadFinishedSuccessfully (req : Request) (response : Response) : bool :=
  if negb (StatusCode response =? 200)%Z then false
  else if String.eqb (Method req) MethodPut
          && negb (Contains (URL_String (Url req)) "partNumber") then true
  else if String.eqb (Method req) MethodPost
          && Contains (URL_String (Url req)) "uploadId" then true
  else false.

(** The completion detector as the specification words it: a status
    outside 200..299 gives false, then the two positive cases. *)
Definition isUploadComplete_spec (method urlString : string) (statusCode : Z) : bool :=
  if negb ((200 <=? statusCode) && (statusCode <? 300))%Z then false
  else if String.eqb method "PUT" && negb (Contains urlString "partNumber") then true
  else if String.eqb method "POST" && Contains urlString "uploadId" then true
  else false.

(** [http.Header.Del] and [http.Header.Get] on a canonical key. *)
Definition Header_Del (h : Header) (key : string) : Header :=
  filter (fun kv => negb (String.eqb (fst kv) key)) h.

Fixpoint Header_Get (h : Header) (key : string) : string :=
  match h with
  | [] => ""
  | (k, vs) :: h' =>
      if String.eqb k key then match vs with v :: _ => v | [] => "" end
      else Header_Get h' key
  end.

(** [Proxy.resignHeader]: the request as it is left behind for the caller
    (the headers dropped, the host set, the header map signed in place). *)
Definition resignHeader (w : World) (p : Proxy) (r : Request)
           (accessKey secretKey backendURL : string) : Request :=
  let h := fold_left Header_Del
             ["X-Amz-Security-Token"; "X-Forwarded-Port"; "X-Forwarded-Proto";
              "X-Forwarded-Host"; "X-Forwarded-For"; "X-Original-Uri";
              "X-Real-Ip"; "X-Request-Id"; "X-Scheme"]
             (ReqHeader r) in
  let host := if Contains backendURL "//"
              then nth 1 (SplitN2 backendURL "//") ""
              else Host r in
  let r1 := mkRequest (Method r) (Url r) h host (Body r) in
  mkRequest (Method r1) (Url r1)
            (SignV4 w r1 accessKey secretKey (region (s3 p)))
            (Host r1) (Body r1).

(** [strconv.ParseInt(s, 10, 64)]: an optional sign and decimal digits;
    a syntax error gives 0, a value out of range the nearest [int64]. *)
Module Strconv.

Definition digitValue (c : ascii) : option Z :=
  let n := Z.of_nat (nat_of_ascii c) in
  if ((48 <=? n) && (n <=? 57))%Z then Some (n - 48)%Z else None.

Fixpoint parseDigits (s : string) (acc : Z) : option Z :=
  match s with
  | EmptyString => Some acc
  | String c s' =>
      match digitValue c with
      | Some d => parseDigits s' (acc * 10 + d)%Z
      | None => None
      end
  end.

Definition ParseInt (s : string) : Z * option error :=
  let syntax := (0%Z, Some "invalid syntax") in
  let range (v : Z) := (v, Some "value out of range") in
  match s with
  | EmptyString => syntax
  | String c s' =>
      let neg := Ascii.eqb c "-" in
      let digits := if Ascii.eqb c "+" || neg then s' else s in
      match digits with
      | EmptyString => syntax
      | _ =>
          match parseDigits digits 0 with
          | None => syntax
          | Some un =>
              if negb neg && (2 ^ 63 <=? un)%Z then range (2 ^ 63 - 1)%Z
              else if neg && (2 ^ 63 <? un)%Z then range (- 2 ^ 63)%Z
              else (if neg then (- un)%Z else un, None)
          end
      end
  end.

End Strconv.

Definition internalServerError : M unit := emit (EWriteHeader 500).
Definition notAllowedResponse : M unit := emit (EWriteHeader 403).
Definition notAuthorized : M unit := emit (EWriteHeader 401).

(** [Proxy.forwardToBackend]: the request as re-signed, and what the
    backend answered. *)
Definition forwardToBackend (w : World) (p : Proxy) (r : Request)
  : M (Request * (Response + error)) :=
  let r1 := resignHeader w p r (accessKey (s3 p)) (secretKey (s3 p)) (url (s3 p)) in
  match NewRequest w (Method r1) (url (s3 p) ++ URL_String (Url r1)) with
  | Some err => ret (r1, inr err)
  | None =>
      let contentLength := fst (Strconv.ParseInt (Header_Get (ReqHeader r1) "Content-Length")) in
      let nr := mkOutbound (Method r1) (url (s3 p) ++ URL_String (Url r1))
                           (ReqHeader r1) contentLength (Body r1) in
      emit (ERoundTrip nr) ;;;
      ret (r1, Do w nr)
  end.

(** The one-byte string holding a double quote. *)
Definition dquote : string := String (ascii_of_nat 34) EmptyString.

(** [Proxy.requestInfo]: the entity tag and the size the backend lists
    for the object, and the error of the Go triple. *)
Definition requestInfo (w : World) (p : Proxy) (fullPath : string)
  : M (string * Z * option error) :=
  let filePath := Replace1 fullPath ("/" ++ bucket (s3 p) ++ "/") "" in
  emit ENewSession ;;;
  match NewSession w with
  | Some err => ret ("", 0%Z, Some err)
  | None =>
      emit (EListObjectsV2 (bucket (s3 p)) 1 filePath) ;;;
      match ListObjectsV2 w (bucket (s3 p)) 1 filePath with
      | inr err => ret ("", 0%Z, Some err)
      | inl contents =>
          match contents with
          | [] => lift Panic                       (* Contents[0] *)
          | o :: _ =>
              match ETag o, Size o with
              | Some etag, Some size => ret (ReplaceAll etag dquote "", size, None)
              | _, _ => lift Panic                 (* nil dereference *)
              end
          end
      end
  end.

(** [Proxy.CreateMessageFromRequest]. *)
Definition CreateMessageFromRequest (w : World) (p : Proxy) (r : Request)
  : M (Event * option error) :=
  username <- lift (index1 (FindStringSubmatch reEvent (Path (Url r)))) ;;
  info <- requestInfo w p (Path (Url r)) ;;
  match info with
  | (_, _, Some err) => fatal ("could not get checksum information: " ++ err)
  | (value, filesize, None) =>
      ret (mkEvent "upload" username (Path (Url r)) filesize
                   [mkChecksum "md5" value], None)
  end.

(** The loop that copies the backend's headers to the response. *)
Definition redirectHeaders (h : Header) : M unit :=
  (flat_map (fun kv => map (EHeaderAdd (fst kv)) (snd kv)) h, Ret tt).

(** The block of [allowedResponse] under [// Send message to upstream]. *)
Definition sendUpstream (w : World) (p : Proxy) (r : Request) (s3response : Response)
  : M unit :=
  if uploadFinishedSuccessfully r s3response then
    created <- CreateMessageFromRequest w p r ;;
    emit (ESendMessage (fst created)) ;;;
    _ <- messenger p (fst created) ;;
    ret tt
  else ret tt.

(** The block of [allowedResponse] under [// Redirect answer]. *)
Definition redirectAnswer (w : World) (s3response : Response) : M unit :=
  redirectHeaders (RespHeader s3response) ;;;
  emit (EWriteBody (RespBody s3response)) ;;;
  match CopyError w with
  | Some _ => fatal "redirect error"
  | None => ret tt
  end.

(** [Proxy.allowedResponse]. *)
Definition allowedResponse (w : World) (p : Proxy) (r : Request) : M unit :=
  emit (EAuthenticate r) ;;;
  match auth p r with
  | Some _ => notAuthorized
  | None =>
      r1 <- lift (prependBucketToHostPath p r) ;;
      fwd <- forwardToBackend w p r1 ;;
      match fwd with
      | (_, inr _) => internalServerError
      | (r2, inl s3response) =>
          sendUpstream w p r2 s3response ;;;
          redirectAnswer w s3response
      end
  end.

(** The arm of the [switch] in [ServeHTTP] a request type selects. *)
Inductive Arm : Type := NotAllowedKnown | Allowed | NotAllowedUnknown.

Definition oneOf (t : S3RequestType) (l : list S3RequestType) : bool :=
  existsb (Z.eqb t) l.

Definition arm (t : S3RequestType) : Arm :=
  if oneOf t [MakeBucket; RemoveBucket; Delete; Policy; Get] then NotAllowedKnown
  else if oneOf t [Put; List; Other; AbortMultipart] then Allowed
  else NotAllowedUnknown.

(** The policy gate of the specification, read off the [switch]. *)
Definition isAllowed (t : S3RequestType) : bool :=
  match arm t with Allowed => true | _ => false end.

(** The body of the [switch] for a given request type. *)
Definition serve (t : S3RequestType) (w : World) (p : Proxy) (r : Request) : M unit :=
  match arm t with
  | NotAllowedKnown => notAllowedResponse
  | Allowed => allowedResponse w p r
  | NotAllowedUnknown => notAllowedResponse
  end.

(** [Proxy.ServeHTTP]. *)
Definition ServeHTTP (w : World) (p : Proxy) (r : Request) : M unit :=
  serve (detectRequestType r) w p r.

(* ================================================================== *)
(** * The AMQP messenger ([main.go])                                  *)
(* ================================================================== *)

(** The broker side of [amqp.Channel] during one publish. *)
Record Channel : Type := mkChannel {
  (** [channel.Confirm(false)]. *)
  ConfirmError : option error;
  (** [channel.Publish]. *)
  PublishError : option error;
  (** What the next receive on the [NotifyPublish] channel yields:
      [None] when nothing ever arrives. *)
  NextConfirmation : option Confirmation;
  (** The text of [uuid.NewRandom()]. *)
  NewRandom : string
}.

(** [AMQPMessenger]. *)
Record AMQPMessenger : Type := mkAMQPMessenger {
  channel : Channel;
  exchange : string;
  routingKey : string
}.

(** [%d] on a delivery tag ([uint64]). *)
Definition decimal (n : Z) : string :=
  DecimalString.NilZero.string_of_uint (N.to_uint (Z.to_N n)).

(** [confirmed := <-confirms]. *)
Definition receive (ch : Channel) : M Confirmation :=
  match NextConfirmation ch with
  | Some c => ([EReceive c], Ret c)
  | None => ([], Block)
  end.

(** [confirmOne]. *)
Definition confirmOne (ch : Channel) : M (option error) :=
  confirmed <- receive ch ;;
  if negb (Ack confirmed)
  then ret (Some ("failed delivery of delivery tag: " ++ decimal (DeliveryTag confirmed)))
  else ret None.

(** [AMQPMessenger.SendMessage].  [defer confirmOne(confirms)] runs when
    the function returns, and a deferred call's result is dropped. *)
Definition SendMessage (m : AMQPMessenger) (message : Event) : M (option error) :=
  emit EConfirm ;;;
  match ConfirmError (channel m) with
  | Some e => fatal ("channel could not be put into confirm mode: " ++ e)
  | None =>
      emit ENotifyPublish ;;;
      let body := Marshal message in
      let corrID := NewRandom (channel m) in
      emit (EPublish (exchange m) (routingKey m) false false
                     (mkPublishing "UTF-8" "application/json" Transient corrID 0 body)) ;;;
      let err := PublishError (channel m) in
      _ <- confirmOne (channel m) ;;
      ret err
  end.

(* ================================================================== *)
(** * Observations on a run, and notions the specification uses       *)
(* ================================================================== *)

(** The events handed to the messenger during a run. *)
Fixpoint sent (t : list Effect) : list Event :=
  match t with
  | [] => []
  | ESendMessage e :: t' => e :: sent t'
  | _ :: t' => sent t'
  end.

(** The messages published to the broker during a run. *)
Fixpoint published (t : list Effect) : list Publishing :=
  match t with
  | [] => []
  | EPublish _ _ _ _ msg :: t' => msg :: published t'
  | _ :: t' => published t'
  end.

(** The effects that write to the caller's response. *)
Definition writesResponse (e : Effect) : bool :=
  match e with
  | EWriteHeader _ | EHeaderAdd _ _ | EWriteBody _ => true
  | _ => false
  end.

(** The backend calls of a run. *)
Definition callsBackend (e : Effect) : bool :=
  match e with
  | ERoundTrip _ | ENewSession | EListObjectsV2 _ _ _ => true
  | _ => false
  end.

(** No byte of [s] is [c]. *)
Fixpoint noByte (c : ascii) (s : string) : bool :=
  match s with
  | EmptyString => true
  | String d s' => negb (Ascii.eqb d c) && noByte c s'
  end.

(** Every byte of [s] is [c]. *)
Fixpoint onlyByte (c : ascii) (s : string) : bool :=
  match s with
  | EmptyString => true
  | String d s' => Ascii.eqb d c && onlyByte c s'
  end.

(** The leading run of bytes other than [c], and what follows it. *)
Fixpoint span (c : ascii) (s : string) : string * string :=
  match s with
  | EmptyString => (EmptyString, EmptyString)
  | String d s' =>
      if Ascii.eqb d c then (EmptyString, s)
      else (String d (fst (span c s')), snd (span c s'))
  end.

(** The first non-empty segment of a path, segments being what lies
    between slashes. *)
Definition firstNonEmptySegment (path : string) : option string :=
  find (fun seg => negb (String.eqb seg "")) (Split path "/").

(** The raw query has a parameter called [name]. *)
Definition hasQueryParam (name query : string) : bool :=
  existsb (fun kv => String.eqb kv name || HasPrefix kv (name ++ "="))
          (Split query "&").

(** The piece of [s] before the first [sep], all of [s] without one. *)
Definition firstPiece (s sep : string) : string :=
  match Cut s sep with
  | Some (before, _) => before
  | None => s
  end.

(* ================================================================== *)
(** * Requests, proxies and backends the statements are run on        *)
(* ================================================================== *)

Definition allTypes : list S3RequestType :=
  [MakeBucket; RemoveBucket; List; Put; Get; Delete; AbortMultipart; Policy; Other].

Definition getAliceAcl : Request :=
  mkRequest "GET" (mkURL "/alice/" "acl" false) [] "" "".

(** A configuration, a proxy and a backend to run the handler on: the
    bucket is [inbox], every caller is authenticated, the messenger
    accepts every event, and the backend answers 200 and lists one object
    of 42 bytes. *)
Definition inboxConfig : S3Config :=
  mkS3Config "https://s3:9000" "access" "secret" "inbox" "us-east-1" "".

Definition inboxProxy : Proxy :=
  mkProxy inboxConfig (fun _ => None) (fun _ => ret None).

Definition quotedTag : string := dquote ++ "9b2cf535f27731c974343645a3985328" ++ dquote.

Definition okWorld : World :=
  mkWorld (fun r _ _ _ => ReqHeader r)
          (fun _ _ => None)
          (fun _ => inl (mkResponse 200 [] ""))
          None
          (fun _ _ _ => inl [mkObject (Some quotedTag) (Some 42%Z)])
          None.

Definition deleteObject : Request :=
  mkRequest "DELETE" (mkURL "/alice/data.bam" "" false) [] "" "".

Definition putObject : Request :=
  mkRequest "PUT" (mkURL "/inbox/alice/data.bam" "" false) [] "" "".

Definition putPart : Request :=
  mkRequest "PUT" (mkURL "/inbox/alice/data.bam" "partNumber=3&uploadId=xyz" false) [] "" "".

Definition getAlice (h : Header) (host body : string) : Request :=
  mkRequest "GET" (mkURL "/alice/" "" false) h host body.

Definition uploadEvent : Event :=
  mkEvent "upload" "alice" "/inbox/alice/data.bam" 42
          [mkChecksum "md5" "9b2cf535f27731c974343645a3985328"].

(** A broker that takes the publishing and answers with a negative
    acknowledgment for delivery tag 1. *)
Definition nackChannel : Channel :=
  mkChannel None None (Some (mkConfirmation 1 false))
            "7d444840-9dc0-11d1-b245-5ffdce74fad2".

Definition nackMessenger : AMQPMessenger :=
  mkAMQPMessenger nackChannel "localega.v1" "files.inbox".

(** A broker that acknowledges, and the proxy that publishes to it. *)
Definition ackChannel : Channel :=
  mkChannel None None (Some (mkConfirmation 1 true))
            "7d444840-9dc0-11d1-b245-5ffdce74fad2".

Definition ackMessenger : AMQPMessenger :=
  mkAMQPMessenger ackChannel "localega.v1" "files.inbox".


Definition listWithPrefix : Request :=
  mkRequest "GET" (mkURL "/alice/" "delimiter=/&prefix=sub/" false) [] "" "".

Definition listNoPrefix : Request :=
  mkRequest "GET" (mkURL "/alice/" "delimiter=%2F" false) [] "" "".

Definition listDelimiterSecond : Request :=
  mkRequest "GET" (mkURL "/alice/" "max-keys=5&delimiter=%2F" false) [] "" "".

Definition putAlice (h : Header) (host body : string) : Request :=
  mkRequest "PUT" (mkURL "/alice/data.bam" "" false) h host body.

Definition postRoot : Request :=
  mkRequest "POST" (mkURL "/" "" false) [] "" "".


(** Headers of a client that announces 7 bytes and a digest of its own. *)
Definition clientHeaders : Header :=
  [("Content-Length", ["7"]);
   ("X-Amz-Content-Sha256", ["2c26b46b68ffc68ff99b453c1d30413413422d706483bfa0f98a5e886266e7ae"])].

Definition putDoubleSlash : Request :=
  mkRequest "PUT" (mkURL "//alice/x/y" "" false) [] "" "".

(* ================================================================== *)
(** * The header-based event builder of [main.go]                     *)
(* ================================================================== *)

Module Main.

(** [Event] as [main.go] declares it: the checksum is one [Checksum]. *)
Record Event : Type := mkEvent {
  Operation : string;
  Username : string;
  Filepath : string;
  Filesize : Z;
  EncodedChecksum : Checksum
}.

(** [Event{}]. *)
Definition zeroEvent : Event := mkEvent "" "" "" 0 (mkChecksum "" "").

(** [CreateMessageFromRequest] of [main.go]: size and digest are read
    from the headers of the request.  The text of the [strconv] error is
    the one [Strconv.ParseInt] gives. *)
Definition CreateMessageFromRequest (r : Request) : Res (Event * option error) :=
  match Strconv.ParseInt (Header_Get (ReqHeader r) "Content-Length") with
  | (_, Some err) => Ret (zeroEvent, Some ("can't parse content-length: " ++ err))
  | (contentLength, None) =>
      match index1 (FindStringSubmatch reRewriter (Path (Url r))) with
      | Ret username =>
          let build (operation : string) :=
            Ret (mkEvent operation username (Path (Url r)) contentLength
                         (mkChecksum "sha256"
                                     (Header_Get (ReqHeader r) "X-Amz-Content-Sha256")),
                 None) in
          if String.eqb (Method r) MethodPut then build "upload"
          else if String.eqb (Method r) MethodPost then build "multipart-upload"
          else Ret (zeroEvent, Some "upload method has to be POST or PUT")
      | _ => Panic
      end
  end.

End Main.

(* ================================================================== *)
(** * Start of the messenger ([main.go])                              *)
(* ================================================================== *)

Module Startup.

(** Modelled from the spec: [BrokerConfig], whose declaration is not in
    the sources (host, port, user, password, vhost, exchange, routing key,
    TLS switch), under the field names [NewAMQPMessenger] reads. *)
Record BrokerConfig : Type := mkBrokerConfig {
  host : string;
  port : string;
  user : string;
  password : string;
  vhost : string;
  exchange : string;
  routingKey : string;
  ssl : bool
}.

(** [buildMqURI]. *)
Definition buildMqURI (mqHost mqPort mqUser mqPassword mqVhost : string) (ssl : bool)
  : string :=
  if ssl
  then "amqps://" ++ mqUser ++ ":" ++ mqPassword ++ "@" ++ mqHost ++ ":" ++ mqPort ++ mqVhost
  else "amqp://" ++ mqUser ++ ":" ++ mqPassword ++ "@" ++ mqHost ++ ":" ++ mqPort ++ mqVhost.

(** The calls [NewAMQPMessenger] makes, in order. *)
Inductive Step : Type :=
| Dial (uri : string)
| DialTLS (uri : string)
| OpenChannel
| Confirm (noWait : bool)
| ExchangeDeclare (name kind : string) (durable autoDelete internal noWait : bool)
| LogFatal (msg : string).

(** What the broker answers to each of them. *)
Record Broker : Type := mkBroker {
  dialError : option error;
  channelError : option error;
  confirmError : option error;
  declareError : option error;
  opened : Channel
}.

(** [NewAMQPMessenger]: [panic] when the connection or the channel cannot
    be opened, [log.Fatalf] when the channel cannot be put in confirm mode
    or the exchange cannot be declared. *)
Definition NewAMQPMessenger (b : Broker) (c : BrokerConfig)
  : list Step * Res AMQPMessenger :=
  let brokerURI := buildMqURI (host c) (port c) (user c) (password c) (vhost c) (ssl c) in
  let dial := if ssl c then DialTLS brokerURI else Dial brokerURI in
  match dialError b with
  | Some _ => ([dial], Panic)
  | None =>
      match channelError b with
      | Some _ => ([dial; OpenChannel], Panic)
      | None =>
          match confirmError b with
          | Some err =>
              ([dial; OpenChannel; Confirm false;
                LogFatal ("Channel could not be put into confirm mode: " ++ err)], Exit)
          | None =>
              let declare := ExchangeDeclare (exchange c) "topic" true false false false in
              match declareError b with
              | Some err =>
                  ([dial; OpenChannel; Confirm false; declare;
                    LogFatal ("Exchange Declare: " ++ err)], Exit)
              | None =>
                  ([dial; OpenChannel; Confirm false; declare],
                   Ret (mkAMQPMessenger (opened b) (exchange c) (routingKey c)))
              end
          end
      end
  end.

End Startup.

(* ================================================================== *)
(** * More observations                                               *)
(* ================================================================== *)

(** The nine headers [resignHeader] drops. *)
Definition proxyHeaders : list string :=
  ["X-Amz-Security-Token"; "X-Forwarded-Port"; "X-Forwarded-Proto";
   "X-Forwarded-Host"; "X-Forwarded-For"; "X-Original-Uri";
   "X-Real-Ip"; "X-Request-Id"; "X-Scheme"].

Definition isProxyHeader (key : string) : bool :=
  existsb (String.eqb key) proxyHeaders.

(** The request [resignHeader] hands to the signer. *)
Definition toSign (r : Request) (backendURL : string) : Request :=
  mkRequest (Method r) (Url r)
            (filter (fun kv => negb (isProxyHeader (fst kv))) (ReqHeader r))
            (match Cut backendURL "//" with
             | Some (_, after) => after
             | None => Host r
             end)
            (Body r).

(** The effects the handler has by itself, the status being one of the
    three it sets. *)
Definition handlerEffect (e : Effect) : bool :=
  match e with
  | EAuthenticate _ | ERoundTrip _ | ENewSession | EListObjectsV2 _ _ _
  | ESendMessage _ | EHeaderAdd _ _ | EWriteBody _ | ELogFatal _ => true
  | EWriteHeader code => (code =? 401)%Z || (code =? 403)%Z || (code =? 500)%Z
  | EConfirm | ENotifyPublish | EPublish _ _ _ _ _ | EReceive _ => false
  end.

Definition isWriteHeader (e : Effect) : bool :=
  match e with EWriteHeader _ => true | _ => false end.

(** The effects of the metadata lookup and of the event builder. *)
Definition lookupEffect (e : Effect) : bool :=
  match e with
  | ENewSession | EListObjectsV2 _ _ _ | ELogFatal _ => true
  | _ => false
  end.

(** The effects of the block that answers the caller. *)
Definition relayEffect (e : Effect) : bool :=
  match e with
  | EHeaderAdd _ _ | EWriteBody _ | ELogFatal _ => true
  | _ => false
  end.

(** The ways a run of [ServeHTTP] goes, up to the two blocks that follow
    a backend response. *)
Inductive ServeCase (w : World) (p : Proxy) (r : Request) : Prop :=
| Denied :
    isAllowed (detectRequestType r) = false ->
    ServeHTTP w p r = ([EWriteHeader 403], Ret tt) ->
    ServeCase w p r
| Unauthorized (err : error) :
    isAllowed (detectRequestType r) = true ->
    auth p r = Some err ->
    ServeHTTP w p r = ([EAuthenticate r; EWriteHeader 401], Ret tt) ->
    ServeCase w p r
| RewritePanics :
    isAllowed (detectRequestType r) = true ->
    auth p r = None ->
    prependBucketToHostPath p r = Panic ->
    ServeHTTP w p r = ([EAuthenticate r], Panic) ->
    ServeCase w p r
| ForwardFails (r1 r2 : Request) (t : list Effect) (err : error) :
    isAllowed (detectRequestType r) = true ->
    auth p r = None ->
    prependBucketToHostPath p r = Ret r1 ->
    forwardToBackend w p r1 = (t, Ret (r2, inr err)) ->
    ServeHTTP w p r = ((EAuthenticate r :: t ++ [EWriteHeader 500])%list, Ret tt) ->
    ServeCase w p r
| Forwarded (r1 r2 : Request) (t : list Effect) (resp : Response) :
    isAllowed (detectRequestType r) = true ->
    auth p r = None ->
    prependBucketToHostPath p r = Ret r1 ->
    forwardToBackend w p r1 = (t, Ret (r2, inl resp)) ->
    ServeHTTP w p r =
      bind (EAuthenticate r :: t, Ret tt)
           (fun _ => sendUpstream w p r2 resp ;;; redirectAnswer w resp) ->
    ServeCase w p r.

(** The event a backend response makes the handler announce, if any. *)
Definition announced (w : World) (p : Proxy) (r : Request) (s3response : Response)
  : list Event :=
  if uploadFinishedSuccessfully r s3response then
    match outcome (CreateMessageFromRequest w p r) with
    | Ret (ev, _) => [ev]
    | _ => []
    end
  else [].


(** A request with its headers, for the header-based builder. *)
Definition putWithHeaders (h : Header) : Request :=
  mkRequest "PUT" (mkURL "/alice/data.bam" "" false) h "" "".


Definition abortUpload : Request :=
  mkRequest "DELETE" (mkURL "/alice/data.bam" "uploadId=xyz" false) [] "" "".

Definition getLocation : Request :=
  mkRequest "GET" (mkURL "/alice/" "location" false) [] "" "".

Definition listBrokenPrefix : Request :=
  mkRequest "GET" (mkURL "/alice/" "delimiter=%2F&prefixes=1" false) [] "" "".

Definition putPartNumberName : Request :=
  mkRequest "PUT" (mkURL "/alice/partNumber.txt" "" false) [] "" "".

Definition getObject : Request :=
  mkRequest "GET" (mkURL "/alice/data.bam" "" false) [] "" "".


Definition brokerConfig : Startup.BrokerConfig :=
  Startup.mkBrokerConfig "mq" "5671" "test" "secret" "/test"
                         "localega.v1" "files.inbox" true.

Definition readyBroker : Startup.Broker :=
  Startup.mkBroker None None None None ackChannel.


(* ================================================================== *)
(** * Lemmas on strings                                               *)
(* ================================================================== *)

Lemma append_nil_r (s : string) : s ++ "" = s.
Proof. induction s as [|c s IH]; simpl; [reflexivity | now rewrite IH]. Qed.

Lemma append_assoc (a b c : string) : (a ++ b) ++ c = a ++ (b ++ c).
Proof. induction a as [|x a IH]; simpl; [reflexivity | now rewrite IH]. Qed.

Lemma append_length (a b : string) :
  String.length (a ++ b) = (String.length a + String.length b)%nat.
Proof. induction a as [|x a IH]; simpl; [reflexivity | now rewrite IH]. Qed.

Lemma HasPrefix_nil (s : string) : HasPrefix s "" = true.
Proof. destruct s; reflexivity. Qed.

Lemma HasPrefix_split (s p : string) :
  HasPrefix s p = true -> s = p ++ drop (String.length p) s.
Proof.
  revert s; induction p as [|c p IH]; intros s H; simpl.
  - destruct s; reflexivity.
  - destruct s as [|d s]; simpl in H; [discriminate|].
    apply andb_true_iff in H as [Hc Hp].
    apply Ascii.eqb_eq in Hc; subst d.
    now rewrite <- (IH s Hp).
Qed.

Lemma HasPrefix_app (p s : string) : HasPrefix (p ++ s) p = true.
Proof.
  induction p as [|c p IH]; simpl; [apply HasPrefix_nil|].
  now rewrite Ascii.eqb_refl, IH.
Qed.

Lemma drop_app (p s : string) : drop (String.length p) (p ++ s) = s.
Proof. induction p as [|c p IH]; simpl; [now destruct s | exact IH]. Qed.

(** A prefix of a prefix. *)
Lemma HasPrefix_app_l (s a b : string) :
  HasPrefix s (a ++ b) = true -> HasPrefix s a = true.
Proof.
  revert s; induction a as [|c a IH]; intros s H; simpl in *.
  - apply HasPrefix_nil.
  - destruct s as [|d s]; [discriminate|].
    apply andb_true_iff in H as [Hc Hp].
    simpl; rewrite Hc; simpl; now apply IH.
Qed.

Lemma Contains_app_l (s a b : string) :
  Contains s (a ++ b) = true -> Contains s a = true.
Proof.
  induction s as [|d s IH]; cbn [Contains]; intros H.
  - rewrite orb_false_r in *. now apply HasPrefix_app_l with b.
  - apply orb_true_iff in H as [H|H]; apply orb_true_iff.
    + left; now apply HasPrefix_app_l with b.
    + right; now apply IH.
Qed.

(** [Cut] finds an occurrence: the input is the two slices around it. *)
Lemma Cut_sound (s sep before after : string) :
  Cut s sep = Some (before, after) -> s = before ++ sep ++ after.
Proof.
  revert before after; induction s as [|d s IH]; intros before after; cbn [Cut].
  - destruct (HasPrefix "" sep) eqn:Hp; [|discriminate].
    intros [= <- <-]. now apply HasPrefix_split in Hp.
  - destruct (HasPrefix (String d s) sep) eqn:Hp.
    + intros [= <- <-]. now apply HasPrefix_split in Hp.
    + destruct (Cut s sep) as [[b a]|] eqn:Hc; [|discriminate].
      intros [= <- <-]. cbn [append]. now rewrite <- (IH b a eq_refl).
Qed.

(** [Cut] fails exactly when [Contains] does. *)
Lemma Cut_Contains (s sep : string) :
  Contains s sep = match Cut s sep with Some _ => true | None => false end.
Proof.
  induction s as [|d s IH]; cbn [Cut Contains].
  - destruct (HasPrefix "" sep); reflexivity.
  - destruct (HasPrefix (String d s) sep); cbn [orb]; [reflexivity|].
    rewrite IH. now destruct (Cut s sep) as [[? ?]|].
Qed.

(** The first piece is not cut again. *)
Lemma Cut_before (s sep before after : string) :
  sep <> "" -> Cut s sep = Some (before, after) -> Contains before sep = false.
Proof.
  intros Hsep; revert before after; induction s as [|d s IH];
    intros before after; cbn [Cut].
  - destruct (HasPrefix "" sep) eqn:Hp; [|discriminate].
    destruct sep; [congruence | discriminate].
  - destruct (HasPrefix (String d s) sep) eqn:Hp.
    + intros [= <- <-]. destruct sep; [congruence | reflexivity].
    + destruct (Cut s sep) as [[b a]|] eqn:Hc; [|discriminate].
      intros [= <- <-]. cbn [Contains].
      specialize (IH b a eq_refl). rewrite IH, orb_false_r.
      destruct (HasPrefix (String d b) sep) eqn:Hb; [|reflexivity].
      pose proof (Cut_sound _ _ _ _ Hc) as E. rewrite E in Hp.
      apply HasPrefix_split in Hb.
      assert (HasPrefix (String d (b ++ sep ++ a)) sep = true) as Hq.
      { change (String d (b ++ sep ++ a)) with (String d b ++ (sep ++ a)).
        rewrite Hb at 1. rewrite append_assoc. apply HasPrefix_app. }
      congruence.
Qed.

(** With a last byte to look at, [s ++ t] ends the way [t] does. *)
Lemma HasSuffix_app (a b : string) (c : ascii) :
  HasSuffix (a ++ b) (String c "") =
  if String.eqb b "" then HasSuffix a (String c "") else HasSuffix b (String c "").
Proof.
  induction a as [|d a IH].
  - simpl. destruct b; reflexivity.
  - change (String d a ++ b) with (String d (a ++ b)).
    cbn [HasSuffix]. rewrite IH.
    destruct b as [|e b].
    + rewrite append_nil_r. reflexivity.
    + cbn [String.eqb].
      assert (String.eqb (a ++ String e b) "" = false) as E by now destruct a.
      rewrite E. now destruct (Ascii.eqb d c).
Qed.



(** Cutting at a byte the first piece does not have. *)
Lemma Cut_byte (c : ascii) (u rest : string) :
  noByte c u = true ->
  Cut (u ++ String c rest) (String c "") = Some (u, rest).
Proof.
  induction u as [|d u IH]; simpl; intros H.
  - rewrite Ascii.eqb_refl. simpl. now destruct rest.
  - apply andb_true_iff in H as [Hd Hu]. apply negb_true_iff in Hd.
    rewrite Ascii.eqb_sym, Hd. simpl. now rewrite IH.
Qed.

Lemma span_app (c : ascii) (u rest : string) :
  noByte c u = true -> span c (u ++ String c rest) = (u, String c rest).
Proof.
  induction u as [|d u IH]; simpl; intros H.
  - now rewrite Ascii.eqb_refl.
  - apply andb_true_iff in H as [Hd Hu]. apply negb_true_iff in Hd.
    now rewrite Hd, IH.
Qed.

Lemma Cut_nil (sep : string) : sep <> "" -> Cut "" sep = None.
Proof. destruct sep; [congruence | reflexivity]. Qed.

Lemma splitLoop_nonempty (n : nat) (s sep : string) :
  exists x rest, splitLoop n s sep = x :: rest.
Proof.
  destruct n; cbn [splitLoop]; [now eexists; eexists|].
  destruct (Cut s sep) as [[a b]|]; now eexists; eexists.
Qed.

(** The fuel of [Split] is enough: any fuel from the length of the input
    on gives the same pieces. *)
Lemma splitLoop_enough (sep : string) :
  sep <> "" ->
  forall n m s,
    (String.length s <= n)%nat -> (String.length s <= m)%nat ->
    splitLoop n s sep = splitLoop m s sep.
Proof.
  intros Hsep. induction n as [|n IH]; intros m s Hn Hm.
  - destruct s; [|cbn in Hn; lia].
    destruct m; cbn [splitLoop]; [reflexivity | now rewrite Cut_nil].
  - destruct m as [|m].
    + destruct s; [|cbn in Hm; lia]. cbn [splitLoop]. now rewrite Cut_nil.
    + cbn [splitLoop]. destruct (Cut s sep) as [[a b]|] eqn:HC; [|reflexivity].
      f_equal. pose proof (Cut_sound _ _ _ _ HC) as E.
      assert (String.length s
              = (String.length a + (String.length sep + String.length b))%nat) as L
        by (rewrite E at 1; now rewrite !append_length).
      assert (1 <= String.length sep)%nat by (destruct sep; [congruence | cbn; lia]).
      apply IH; lia.
Qed.

(** Joining the pieces with the separator gives the input back. *)
Lemma Join_splitLoop (n : nat) (s sep : string) :
  Join (splitLoop n s sep) sep = s.
Proof.
  revert s; induction n as [|n IH]; intros s; [reflexivity|].
  cbn [splitLoop]. destruct (Cut s sep) as [[a b]|] eqn:HC; [|reflexivity].
  destruct (splitLoop_nonempty n b sep) as (x & rest & E).
  specialize (IH b). rewrite E in *. cbn [Join]. cbn [Join] in IH.
  rewrite IH. symmetry. now apply Cut_sound.
Qed.

(* ================================================================== *)
(** * Lemmas on the two patterns                                      *)
(* ================================================================== *)

Lemma firstSome_app {A B : Type} (f : A -> option B) (l1 l2 : list A) :
  firstSome f (l1 ++ l2)%list =
  match firstSome f l1 with Some y => Some y | None => firstSome f l2 end.
Proof.
  induction l1 as [|x l1 IH]; simpl; [reflexivity|].
  destruct (f x); [reflexivity | exact IH].
Qed.

Lemma firstSome_map {A B C : Type} (f : B -> option C) (g : A -> B) (l : list A) :
  firstSome f (map g l) = firstSome (fun x => f (g x)) l.
Proof.
  induction l as [|x l IH]; simpl; [reflexivity|].
  destruct (f (g x)); [reflexivity | exact IH].
Qed.

Section Separator.

(** The byte that separates the segments. *)
Variable c : ascii.

Lemma span_fst_nil (s : string) :
  fst (span c s) = "" -> snd (span c s) = s.
Proof.
  destruct s as [|d s]; simpl; [reflexivity|].
  destruct (Ascii.eqb d c); simpl; [reflexivity | discriminate].
Qed.

Lemma span_fst_cons (s : string) :
  fst (span c s) <> "" ->
  exists d tl, s = String d tl /\ Ascii.eqb d c = false.
Proof.
  destruct s as [|d s]; simpl; [congruence|].
  destruct (Ascii.eqb d c) eqn:E; simpl; [congruence|].
  intros _; now exists d, s.
Qed.

(** Backtracking over the runs of [[^c]+] never helps a continuation
    that needs the byte [c] next: only the longest run can do. *)
Lemma firstSome_runs {B : Type} (s : string) :
  forall f : string * string -> option B,
    (forall a d tl, Ascii.eqb d c = false -> f (a, String d tl) = None) ->
    firstSome f (runs c s) =
    if String.eqb (fst (span c s)) "" then None
    else f (fst (span c s), snd (span c s)).
Proof.
  induction s as [|d s IH]; intros f Hf; [reflexivity|].
  cbn [runs span]. destruct (Ascii.eqb d c) eqn:Hd; [reflexivity|].
  cbn [fst snd String.eqb].
  rewrite firstSome_app, firstSome_map, IH
    by (intros; cbn [fst snd]; now apply Hf).
  cbn [fst snd firstSome].
  destruct (String.eqb (fst (span c s)) "") eqn:E.
  - apply String.eqb_eq in E. rewrite E, (span_fst_nil s E).
    now destruct (f (String d "", s)).
  - apply String.eqb_neq in E.
    destruct (f (String d (fst (span c s)), snd (span c s))); [reflexivity|].
    destruct (span_fst_cons s E) as (e & tl & -> & He).
    now rewrite Hf.
Qed.

Lemma matchHere_Lit_other (d : ascii) (re : Regexp) (tl : string) :
  Ascii.eqb d c = false ->
  matchHere (Plain (Lit c) :: re) (String d tl) = None.
Proof. intros H; cbn. now rewrite H. Qed.

Lemma matchHere_Lit_same (re : Regexp) (tl : string) :
  matchHere (Plain (Lit c) :: re) (String c tl) =
  match matchHere re tl with
  | Some (m, groups) => Some (String c m, groups)
  | None => None
  end.
Proof.
  cbn [matchHere atom_of alternatives]. rewrite Ascii.eqb_refl.
  cbn [firstSome snd fst]. now destruct (matchHere re tl) as [[m g]|].
Qed.

(** A segment followed by the separator: the segment is the whole run. *)
Lemma matchHere_segment (i : item) (re : Regexp) (s : string) :
  atom_of i = PlusNot c ->
  matchHere (i :: Plain (Lit c) :: re) s =
  if String.eqb (fst (span c s)) "" then None
  else match matchHere (Plain (Lit c) :: re) (snd (span c s)) with
       | Some (m, groups) =>
           Some (fst (span c s) ++ m,
                 match i with
                 | Group _ => fst (span c s) :: groups
                 | Plain _ => groups
                 end)
       | None => None
       end.
Proof.
  intros Hi. cbn [matchHere]. rewrite Hi. cbn [alternatives].
  rewrite firstSome_runs; [reflexivity|].
  intros a d tl Hd. cbn [snd].
  change (firstSome _ (alternatives (atom_of (Plain (Lit c))) (String d tl)))
    with (matchHere (Plain (Lit c) :: re) (String d tl)).
  now rewrite matchHere_Lit_other.
Qed.

Lemma runs_onlyByte (s : string) :
  onlyByte c s = true -> runs c s = [].
Proof.
  destruct s as [|d s]; [reflexivity|]. simpl.
  intros H. apply andb_true_iff in H as [H _]. now rewrite H.
Qed.

End Separator.

(** The rewriter's pattern on a path that starts with [/u/]. *)
Lemma reRewriter_leading_segment (u rest : string) :
  u <> "" -> noByte slash u = true ->
  index1 (FindStringSubmatch reRewriter (String slash (u ++ String slash rest)))
  = Ret u.
Proof.
  intros Hne Hu. cbn [FindStringSubmatch].
  assert (matchHere reRewriter (String slash (u ++ String slash rest))
          = Some (String slash (u ++ String slash ""), [u])) as E.
  { unfold reRewriter. rewrite matchHere_Lit_same.
    rewrite (matchHere_segment slash (Group (PlusNot slash)) [] _ eq_refl).
    rewrite (span_app slash u rest Hu). cbn [fst snd].
    apply String.eqb_neq in Hne. rewrite Hne.
    rewrite matchHere_Lit_same. reflexivity. }
  rewrite E. reflexivity.
Qed.

(** The event builder's pattern on [/b/u/...]. *)
Lemma reEvent_second_segment (b u rest : string) :
  b <> "" -> noByte slash b = true ->
  u <> "" -> noByte slash u = true ->
  index1 (FindStringSubmatch reEvent
            (String slash (b ++ String slash (u ++ String slash rest))))
  = Ret u.
Proof.
  intros Hb Hbs Hu Hus. cbn [FindStringSubmatch].
  assert (matchHere reEvent
            (String slash (b ++ String slash (u ++ String slash rest)))
          = Some (String slash (b ++ String slash (u ++ String slash "")), [u])) as E.
  { unfold reEvent. rewrite matchHere_Lit_same.
    rewrite (matchHere_segment slash (Plain (PlusNot slash)) _ _ eq_refl).
    rewrite (span_app slash b _ Hbs). cbn [fst snd].
    apply String.eqb_neq in Hb. rewrite Hb.
    rewrite matchHere_Lit_same.
    rewrite (matchHere_segment slash (Group (PlusNot slash)) [] _ eq_refl).
    rewrite (span_app slash u rest Hus). cbn [fst snd].
    apply String.eqb_neq in Hu. rewrite Hu.
    rewrite matchHere_Lit_same. reflexivity. }
  rewrite E. reflexivity.
Qed.

(** A path made of slashes only has no segment to capture. *)
Lemma reRewriter_no_segment (s : string) :
  onlyByte slash s = true -> FindStringSubmatch reRewriter s = None.
Proof.
  induction s as [|d s IH]; [reflexivity|].
  intros H. pose proof H as H'. simpl in H'.
  apply andb_true_iff in H' as [Hd Hs].
  cbn [FindStringSubmatch].
  replace (matchHere reRewriter (String d s)) with (@None (string * list string)).
  - now apply IH.
  - unfold reRewriter. cbn [matchHere atom_of alternatives].
    rewrite Hd. cbn [firstSome snd fst]. now rewrite (runs_onlyByte slash s Hs).
Qed.

Lemma reEvent_no_segment (s : string) :
  onlyByte slash s = true -> FindStringSubmatch reEvent s = None.
Proof.
  induction s as [|d s IH]; [reflexivity|].
  intros H. pose proof H as H'. simpl in H'.
  apply andb_true_iff in H' as [Hd Hs].
  cbn [FindStringSubmatch].
  replace (matchHere reEvent (String d s)) with (@None (string * list string)).
  - now apply IH.
  - unfold reEvent. cbn [matchHere atom_of alternatives].
    rewrite Hd. cbn [firstSome snd fst]. now rewrite (runs_onlyByte slash s Hs).
Qed.

(* ================================================================== *)
(** * The classifier                                                  *)
(* ================================================================== *)

(** The URL string ends in a slash when the raw query does, or, without
    a query part, when the path does. *)
Lemma URL_String_slash (u : URL) :
  HasSuffix (URL_String u) "/" =
  if negb (String.eqb (RawQuery u) "") then HasSuffix (RawQuery u) "/"
  else negb (ForceQuery u) && HasSuffix (Path u) "/".
Proof.
  unfold URL_String. destruct u as [path query force]; cbn [Path RawQuery ForceQuery].
  rewrite HasSuffix_app.
  destruct query as [|c q].
  - destruct force; reflexivity.
  - rewrite orb_true_r. cbn [negb String.eqb append].
    change (String "?" (String c q)) with ("?" ++ String c q).
    rewrite HasSuffix_app. reflexivity.
Qed.

(** A marker [?k] in the URL string of a path without [?]: the raw
    query starts with [k], or holds [?k] itself. *)
Lemma URL_String_marker (u : URL) (k : string) :
  noByte "?" (Path u) = true ->
  Contains (URL_String u) (String "?" k) =
  (ForceQuery u || negb (String.eqb (RawQuery u) ""))
  && (HasPrefix (RawQuery u) k || Contains (RawQuery u) (String "?" k)).
Proof.
  unfold URL_String. destruct u as [path query force]; cbn [Path RawQuery ForceQuery].
  intros Hp. destruct (force || negb (String.eqb query "")); cbn [andb].
  - induction path as [|d path IH].
    + cbn [append Contains HasPrefix]. now rewrite Ascii.eqb_refl.
    + cbn [noByte] in Hp. apply andb_true_iff in Hp as [Hd Hp].
      apply negb_true_iff in Hd.
      change (String d path ++ "?" ++ query) with (String d (path ++ "?" ++ query)).
      cbn [Contains HasPrefix]. rewrite Ascii.eqb_sym, Hd. cbn [andb orb].
      now apply IH.
  - rewrite append_nil_r. induction path as [|d path IH]; [reflexivity|].
    cbn [noByte] in Hp. apply andb_true_iff in Hp as [Hd Hp].
    apply negb_true_iff in Hd.
    cbn [Contains HasPrefix]. rewrite Ascii.eqb_sym, Hd. cbn [andb orb].
    now apply IH.
Qed.

(** C1, as the code has it.  The classifier reads the URL string (the
    path, then [?] and the raw query when there is one), not the path and
    the query apart.  GET: the URL string ends in [/] gives Get, it
    contains [?acl] gives Policy, else List.  DELETE: ends in [/] gives
    RemoveBucket, contains [uploadId] gives AbortMultipart, else Delete.
    PUT: ends in [/] gives MakeBucket, contains [?policy] gives Policy,
    else Put.  Any other method gives Other.  The result is always one of
    the nine categories.  The URL string ends in [/] when the raw query is
    not empty and ends in [/], or when there is no query part and the path
    ends in [/].  For a path without [?], the URL string contains a marker
    [?k] when there is a query part and the raw query starts with [k] or
    contains [?k]. *)
Theorem detectRequestType_rules (r : Request) :
  let u := URL_String (Url r) in
  (Method r = "GET" ->
   detectRequestType r =
   if HasSuffix u "/" then Get else if Contains u "?acl" then Policy else List)
  /\ (Method r = "DELETE" ->
      detectRequestType r =
      if HasSuffix u "/" then RemoveBucket
      else if Contains u "uploadId" then AbortMultipart else Delete)
  /\ (Method r = "PUT" ->
      detectRequestType r =
      if HasSuffix u "/" then MakeBucket
      else if Contains u "?policy" then Policy else Put)
  /\ (Method r <> "GET" -> Method r <> "DELETE" -> Method r <> "PUT" ->
      detectRequestType r = Other)
  /\ In (detectRequestType r) allTypes
  /\ HasSuffix u "/" =
     (if negb (String.eqb (RawQuery (Url r)) "")
      then HasSuffix (RawQuery (Url r)) "/"
      else negb (ForceQuery (Url r)) && HasSuffix (Path (Url r)) "/")
  /\ (noByte "?" (Path (Url r)) = true ->
      forall k,
        Contains u (String "?" k) =
        (ForceQuery (Url r) || negb (String.eqb (RawQuery (Url r)) ""))
        && (HasPrefix (RawQuery (Url r)) k
            || Contains (RawQuery (Url r)) (String "?" k))).
Proof.
  cbv zeta. unfold detectRequestType, MethodGet, MethodDelete, MethodPut.
  repeat split.
  - intros ->. reflexivity.
  - intros ->. reflexivity.
  - intros ->. reflexivity.
  - intros HG HD HP.
    apply String.eqb_neq in HG, HD, HP. now rewrite HG, HD, HP.
  - unfold allTypes.
    destruct (String.eqb (Method r) "GET");
      [|destruct (String.eqb (Method r) "DELETE");
        [|destruct (String.eqb (Method r) "PUT")]];
      repeat match goal with
             | |- context [if ?b then _ else _] => destruct b
             end; simpl; tauto.
  - apply URL_String_slash.
  - intros Hp k. now apply URL_String_marker.
Qed.

Lemma detectRequestType_rules_witness :
  Method getAliceAcl = "GET" /\ detectRequestType getAliceAcl = Policy.
Proof.
  split; [reflexivity|].
  destruct (detectRequestType_rules getAliceAcl) as (HG & _).
  rewrite (HG eq_refl). reflexivity.
Defined.

(** C1 as stated fails: on GET [/alice/?acl] the path ends in [/], so the
    rule table gives Get, and the code gives Policy. *)
Lemma detectRequestType_not_rule_table :
  classify_spec (Method getAliceAcl) (Path (Url getAliceAcl))
                (RawQuery (Url getAliceAcl)) = Get
  /\ detectRequestType getAliceAcl = Policy
  /\ detectRequestType getAliceAcl <>
     classify_spec (Method getAliceAcl) (Path (Url getAliceAcl))
                   (RawQuery (Url getAliceAcl)).
Proof. split; [reflexivity | split; [reflexivity | discriminate]]. Qed.

(* ================================================================== *)
(** * The policy gate                                                 *)
(* ================================================================== *)




(* ================================================================== *)
(** * The completion detector                                         *)
(* ================================================================== *)

(** C4, as the code has it.  The detector returns false whenever the
    backend status is not 200 (so for every status outside 200..299, and
    for the other 2xx statuses too); with status 200 it returns true for
    PUT when the URL string has no [partNumber], true for POST when the
    URL string has [uploadId], and false in every other case; at status
    200 and at every non-2xx status it agrees with the detector of the
    specification. *)
Theorem uploadFinishedSuccessfully_rules (req : Request) (response : Response) :
  let u := URL_String (Url req) in
  uploadFinishedSuccessfully req response =
    (StatusCode response =? 200)%Z
    && ((String.eqb (Method req) "PUT" && negb (Contains u "partNumber"))
        || (String.eqb (Method req) "POST" && Contains u "uploadId"))
  /\ (StatusCode response <> 200%Z -> uploadFinishedSuccessfully req response = false)
  /\ (~ (200 <= StatusCode response < 300)%Z ->
      uploadFinishedSuccessfully req response = false)
  /\ (StatusCode response = 200%Z \/ ~ (200 <= StatusCode response < 300)%Z ->
      uploadFinishedSuccessfully req response =
      isUploadComplete_spec (Method req) u (StatusCode response)).
Proof.
  cbv zeta. unfold uploadFinishedSuccessfully, isUploadComplete_spec, MethodPut, MethodPost.
  destruct (Z.eqb_spec (StatusCode response) 200) as [E|E]; cbn [negb andb].
  - rewrite E. cbn.
    repeat split; try congruence; try lia;
      destruct (String.eqb (Method req) "PUT"
                && negb (Contains (URL_String (Url req)) "partNumber"));
      destruct (String.eqb (Method req) "POST" && Contains (URL_String (Url req)) "uploadId");
      reflexivity.
  - repeat split; try reflexivity.
    intros [H|H]; [congruence|].
    destruct ((200 <=? StatusCode response)%Z) eqn:E1;
      destruct ((StatusCode response <? 300)%Z) eqn:E2; cbn; try reflexivity.
    apply Z.leb_le in E1. apply Z.ltb_lt in E2. lia.
Qed.

Lemma uploadFinishedSuccessfully_rules_witness :
  uploadFinishedSuccessfully putObject (mkResponse 404 [] "") = false
  /\ uploadFinishedSuccessfully putPart (mkResponse 200 [] "")
     = isUploadComplete_spec "PUT" (URL_String (Url putPart)) 200.
Proof.
  split.
  - destruct (uploadFinishedSuccessfully_rules putObject (mkResponse 404 [] ""))
      as (_ & H & _).
    apply H. cbn. discriminate.
  - destruct (uploadFinishedSuccessfully_rules putPart (mkResponse 200 [] ""))
      as (_ & _ & _ & H).
    apply H. left. reflexivity.
Defined.

(** C4 as stated fails: a plain PUT answered 201 has a success status and
    no [partNumber], so the specification's detector says true, and the
    code says false. *)
Lemma uploadFinishedSuccessfully_not_2xx :
  (200 <= 201 < 300)%Z
  /\ isUploadComplete_spec (Method putObject) (URL_String (Url putObject)) 201 = true
  /\ uploadFinishedSuccessfully putObject (mkResponse 201 [] "") = false.
Proof. split; [lia | split; reflexivity]. Qed.

(* ================================================================== *)
(** * Bucket listing through the handler                              *)
(* ================================================================== *)

(** C9, as the code has it.  A GET of [/alice/] without a query string
    is classified Get (its URL string ends in [/]), the gate denies it,
    and the run is the 403 response alone: the request is not forwarded
    to the backend and no event is published. *)
Theorem ServeHTTP_get_bucket_root (w : World) (p : Proxy) (h : Header) (host body : string) :
  let r := getAlice h host body in
  detectRequestType r = Get
  /\ isAllowed (detectRequestType r) = false
  /\ ServeHTTP w p r = ([EWriteHeader 403], Ret tt)
  /\ sent (trace (ServeHTTP w p r)) = []
  /\ existsb callsBackend (trace (ServeHTTP w p r)) = false.
Proof. cbv zeta. repeat (split; [reflexivity|]). reflexivity. Qed.

(** C9 as stated fails: the request is not classified List and is not
    allowed. *)
Lemma get_bucket_root_not_List :
  detectRequestType (getAlice [] "" "") <> List
  /\ isAllowed (detectRequestType (getAlice [] "" "")) = false.
Proof. split; [discriminate | reflexivity]. Qed.

(* ================================================================== *)
(** * The metadata resolver                                           *)
(* ================================================================== *)


Lemma splitLoop_S (n : nat) (s sep : string) :
  splitLoop (S n) s sep =
  match Cut s sep with
  | None => [s]
  | Some (before, after) => before :: splitLoop n after sep
  end.
Proof. reflexivity. Qed.

Lemma Cut_head (s sep : string) :
  HasPrefix s sep = true -> Cut s sep = Some ("", drop (String.length sep) s).
Proof. intros H. destruct s; cbn [Cut]; now rewrite H. Qed.


(** How [requestInfo] ends, case by case. *)
Lemma requestInfo_outcome (w : World) (p : Proxy) (fullPath : string) :
  outcome (requestInfo w p fullPath) =
  match NewSession w with
  | Some err => Ret ("", 0%Z, Some err)
  | None =>
      match ListObjectsV2 w (bucket (s3 p)) 1
              (Replace1 fullPath ("/" ++ bucket (s3 p) ++ "/") "") with
      | inr err => Ret ("", 0%Z, Some err)
      | inl [] => Panic
      | inl (o :: _) =>
          match ETag o, Size o with
          | Some etag, Some size => Ret (ReplaceAll etag dquote "", size, None)
          | _, _ => Panic
          end
      end
  end.
Proof.
  unfold requestInfo, outcome.
  destruct (NewSession w); [reflexivity|]. cbn.
  destruct (ListObjectsV2 w (bucket (s3 p)) 1 _) as [[|o rest]|e]; try reflexivity.
  cbn. destruct (ETag o); [|reflexivity]. destruct (Size o); reflexivity.
Qed.



(* ================================================================== *)
(** * The publisher                                                   *)
(* ================================================================== *)

(** A run of [SendMessage] that gets through [Confirm] and receives a
    confirmation: the event is serialised into the body, the correlation
    identifier is the one just drawn, the delivery mode is transient, one
    confirmation is received, and the result is the error of [Publish]
    whatever the confirmation says. *)
Lemma SendMessage_run (m : AMQPMessenger) (message : Event) (c : Confirmation) :
  ConfirmError (channel m) = None ->
  NextConfirmation (channel m) = Some c ->
  SendMessage m message =
  ([EConfirm; ENotifyPublish;
    EPublish (exchange m) (routingKey m) false false
             (mkPublishing "UTF-8" "application/json" Transient
                           (NewRandom (channel m)) 0 (Marshal message));
    EReceive c],
   Ret (PublishError (channel m))).
Proof.
  intros HC HN. unfold SendMessage, confirmOne, receive. rewrite HC, HN.
  cbn. now destruct (Ack c).
Qed.

(** Without a confirmation [SendMessage] does not return. *)
Lemma SendMessage_blocks (m : AMQPMessenger) (message : Event) :
  ConfirmError (channel m) = None ->
  NextConfirmation (channel m) = None ->
  outcome (SendMessage m message) = Block.
Proof.
  intros HC HN. unfold SendMessage, confirmOne, receive. now rewrite HC, HN.
Qed.


(** Once the channel is in confirm mode, one message is published: the
    event in JSON, transient, under the correlation identifier drawn. *)
Lemma SendMessage_published (m : AMQPMessenger) (message : Event) :
  ConfirmError (channel m) = None ->
  published (trace (SendMessage m message))
  = [mkPublishing "UTF-8" "application/json" Transient
                  (NewRandom (channel m)) 0 (Marshal message)].
Proof.
  intros HC. unfold SendMessage, confirmOne, receive. rewrite HC.
  destruct (NextConfirmation (channel m)) as [c|]; [|reflexivity].
  cbn. now destruct (Ack c).
Qed.

(** C6, at a negative acknowledgment.  [confirmOne] builds the error for
    the failed delivery, and [SendMessage], which runs it deferred, still
    returns nil to its caller. *)
Theorem SendMessage_nack_returns_nil :
  outcome (confirmOne nackChannel)
  = Ret (Some "failed delivery of delivery tag: 1")
  /\ outcome (SendMessage nackMessenger uploadEvent) = Ret None
  /\ trace (SendMessage nackMessenger uploadEvent)
     = [EConfirm; ENotifyPublish;
        EPublish "localega.v1" "files.inbox" false false
                 (mkPublishing "UTF-8" "application/json" 1
                               "7d444840-9dc0-11d1-b245-5ffdce74fad2" 0
                               (Marshal uploadEvent));
        EReceive (mkConfirmation 1 false)].
Proof. split; [reflexivity | split; reflexivity]. Qed.

(* ================================================================== *)
(** * The namespace rewriter on listings                              *)
(* ================================================================== *)

Lemma firstPiece_whole (s sep : string) :
  Contains s sep = false -> firstPiece s sep = s.
Proof.
  unfold firstPiece. rewrite Cut_Contains.
  now destruct (Cut s sep) as [[? ?]|].
Qed.

(** The first two pieces of a split at a separator that occurs. *)
Lemma Split_first_two (s sep before after : string) :
  sep <> "" -> (2 <= String.length sep)%nat ->
  Cut s sep = Some (before, after) ->
  exists rest, Split s sep = before :: firstPiece after sep :: rest.
Proof.
  intros Hne Hlen HC. unfold Split.
  destruct sep as [|c sep]; [congruence|].
  pose proof (Cut_sound _ _ _ _ HC) as E.
  assert (exists n, String.length s = S (S n)) as [n L].
  { rewrite E, !append_length.
    exists (String.length before + (String.length (String c sep) - 2)
            + String.length after)%nat.
    lia. }
  rewrite L, splitLoop_S, HC, splitLoop_S. unfold firstPiece.
  destruct (Cut after (String c sep)) as [[b a]|]; eexists; reflexivity.
Qed.

(** C3, as the code has it.  For a GET whose URL string contains
    [?delimiter] (the delimiter is the first parameter of the query) and
    whose path has a match for [/([^/]+)/], the rewriter sets the path to
    the bucket root [/<bucket>/].  When the raw query contains [&prefix=],
    it is cut at the first one, and the new query is the part before it,
    then [&prefix=<username>%2F], then the caller's prefix value (what
    follows, up to the next [&prefix=] if there is one).  When the raw
    query does not contain [&prefix], [&prefix=<username>%2F] is appended
    to it. *)
Theorem prependBucketToHostPath_delimiter (p : Proxy) (r : Request) (username : string) :
  Method r = "GET" ->
  Contains (URL_String (Url r)) "?delimiter" = true ->
  index1 (FindStringSubmatch reRewriter (Path (Url r))) = Ret username ->
  let q := RawQuery (Url r) in
  let root := "/" ++ bucket (s3 p) ++ "/" in
  (forall before after,
      Cut q "&prefix=" = Some (before, after) ->
      q = before ++ "&prefix=" ++ after
      /\ Contains before "&prefix=" = false
      /\ prependBucketToHostPath p r =
         Ret (setPathQuery r root
                (before ++ "&prefix=" ++ username ++ "%2F"
                        ++ firstPiece after "&prefix="))
      /\ (Contains after "&prefix=" = false ->
          prependBucketToHostPath p r =
          Ret (setPathQuery r root
                 (before ++ "&prefix=" ++ username ++ "%2F" ++ after))))
  /\ (Contains q "&prefix" = false ->
      prependBucketToHostPath p r =
      Ret (setPathQuery r root (q ++ "&prefix=" ++ username ++ "%2F"))).
Proof.
  intros HM HD HU q root. unfold prependBucketToHostPath.
  rewrite HU, HM. cbn [String.eqb MethodGet Ascii.eqb Bool.eqb andb].
  rewrite HD. fold q. fold root. split.
  - intros before after HC.
    assert (Contains q "&prefix" = true) as HP.
    { apply (Contains_app_l q "&prefix" "=").
      change ("&prefix" ++ "=") with "&prefix=".
      rewrite Cut_Contains. now rewrite HC. }
    rewrite HP.
    destruct (Split_first_two q "&prefix=" before after) as [rest ES];
      [discriminate | cbn; lia | exact HC |].
    rewrite ES. cbn [params01].
    split; [now apply Cut_sound|].
    split; [apply (Cut_before q "&prefix=" before after); [discriminate | exact HC]|].
    split; [reflexivity|].
    intros HA. now rewrite (firstPiece_whole _ _ HA).
  - intros HP. now rewrite HP.
Qed.

Lemma prependBucketToHostPath_delimiter_witness :
  prependBucketToHostPath inboxProxy listWithPrefix
  = Ret (setPathQuery listWithPrefix "/inbox/" "delimiter=/&prefix=alice%2Fsub/")
  /\ prependBucketToHostPath inboxProxy listNoPrefix
     = Ret (setPathQuery listNoPrefix "/inbox/" "delimiter=%2F&prefix=alice%2F").
Proof.
  split.
  - destruct (prependBucketToHostPath_delimiter inboxProxy listWithPrefix "alice"
                eq_refl eq_refl eq_refl) as (H & _).
    destruct (H "delimiter=/" "sub/" eq_refl) as (_ & _ & _ & H').
    exact (H' eq_refl).
  - destruct (prependBucketToHostPath_delimiter inboxProxy listNoPrefix "alice"
                eq_refl eq_refl eq_refl) as (_ & H).
    exact (H eq_refl).
Defined.

(** C3 as stated fails: an allowed GET with a delimiter parameter that is
    not the first one goes through the rewriter unchanged, its path is not
    the bucket root and its query gets no prefix. *)
Lemma prependBucketToHostPath_delimiter_not_first :
  Method listDelimiterSecond = "GET"
  /\ isAllowed (detectRequestType listDelimiterSecond) = true
  /\ hasQueryParam "delimiter" (RawQuery (Url listDelimiterSecond)) = true
  /\ prependBucketToHostPath inboxProxy listDelimiterSecond = Ret listDelimiterSecond
  /\ Path (Url listDelimiterSecond) <> "/inbox/"
  /\ Contains (RawQuery (Url listDelimiterSecond)) "prefix=alice%2F" = false.
Proof.
  split; [reflexivity|]. split; [reflexivity|]. split; [reflexivity|].
  split; [reflexivity|]. split; [discriminate | reflexivity].
Qed.

(** The listing of the specification's example, with its slashes left
    unescaped in the query, does not reach the rewriter through the
    handler: its URL string ends in [/] and the gate denies it. *)
Lemma listWithPrefix_denied :
  detectRequestType listWithPrefix = Get
  /\ ServeHTTP okWorld inboxProxy listWithPrefix = ([EWriteHeader 403], Ret tt).
Proof. split; reflexivity. Qed.

(* ================================================================== *)
(** * Identity extraction                                             *)
(* ================================================================== *)

(** The segments of [/u/rest] start with the empty one, then [u]. *)
Lemma firstNonEmptySegment_leading (u rest : string) :
  u <> "" -> noByte slash u = true ->
  firstNonEmptySegment (String slash (u ++ String slash rest)) = Some u.
Proof.
  intros Hne Hu. unfold firstNonEmptySegment, Split.
  cbn [String.length]. rewrite append_length. cbn [String.length].
  rewrite Nat.add_succ_r, splitLoop_S.
  rewrite Cut_head by (cbn [HasPrefix]; fold slash; rewrite Ascii.eqb_refl; apply HasPrefix_nil).
  cbn [String.length drop]. rewrite splitLoop_S.
  fold slash. rewrite (Cut_byte slash u rest Hu).
  cbn [find String.eqb negb]. apply String.eqb_neq in Hne. now rewrite Hne.
Qed.

(** C8, as the code has it.  When the rewriter's pattern has no match on
    the path, in particular when the path has no non-empty segment, the
    rewriter panics (it indexes the nil slice); so does the event builder
    when its own pattern has no match.  No error result is produced.  For
    a PUT or POST whose path starts with [/<username>/], the username not
    empty and without slash, and a bucket name not empty and without
    slash, the rewriter extracts that username, which is the first
    non-empty segment of the path, and the event builder extracts the same
    one from the rewritten path [/<bucket>/<username>/...]. *)
Theorem username_extraction (w : World) (p : Proxy) (r : Request) :
  (FindStringSubmatch reRewriter (Path (Url r)) = None ->
   prependBucketToHostPath p r = Panic)
  /\ (FindStringSubmatch reEvent (Path (Url r)) = None ->
      CreateMessageFromRequest w p r = ([], Panic))
  /\ (onlyByte slash (Path (Url r)) = true ->
      prependBucketToHostPath p r = Panic
      /\ CreateMessageFromRequest w p r = ([], Panic))
  /\ (forall u rest,
         Path (Url r) = "/" ++ u ++ "/" ++ rest ->
         u <> "" -> noByte slash u = true ->
         bucket (s3 p) <> "" -> noByte slash (bucket (s3 p)) = true ->
         Method r = "PUT" \/ Method r = "POST" ->
         index1 (FindStringSubmatch reRewriter (Path (Url r))) = Ret u
         /\ firstNonEmptySegment (Path (Url r)) = Some u
         /\ prependBucketToHostPath p r
            = Ret (setPath r ("/" ++ bucket (s3 p) ++ Path (Url r)))
         /\ index1 (FindStringSubmatch reEvent ("/" ++ bucket (s3 p) ++ Path (Url r)))
            = Ret u).
Proof.
  assert (FindStringSubmatch reRewriter (Path (Url r)) = None ->
          prependBucketToHostPath p r = Panic) as H1.
  { intros H. unfold prependBucketToHostPath. now rewrite H. }
  assert (FindStringSubmatch reEvent (Path (Url r)) = None ->
          CreateMessageFromRequest w p r = ([], Panic)) as H2.
  { intros H. unfold CreateMessageFromRequest. now rewrite H. }
  split; [exact H1|]. split; [exact H2|]. split.
  - intros H. split; [apply H1; now apply reRewriter_no_segment
                     | apply H2; now apply reEvent_no_segment].
  - intros u rest HP Hne Hu Hb Hbs HM. rewrite HP.
    change ("/" ++ u ++ "/" ++ rest) with (String slash (u ++ String slash rest)).
    pose proof (reRewriter_leading_segment u rest Hne Hu) as E.
    split; [exact E|]. split; [now apply firstNonEmptySegment_leading|]. split.
    + unfold prependBucketToHostPath. rewrite HP.
      change ("/" ++ u ++ "/" ++ rest) with (String slash (u ++ String slash rest)).
      rewrite E. destruct HM as [-> | ->]; reflexivity.
    + change ("/" ++ bucket (s3 p) ++ String slash (u ++ String slash rest))
        with (String slash (bucket (s3 p) ++ String slash (u ++ String slash rest))).
      now apply reEvent_second_segment.
Qed.

Lemma username_extraction_witness :
  prependBucketToHostPath inboxProxy postRoot = Panic
  /\ index1 (FindStringSubmatch reEvent
               ("/" ++ bucket (s3 inboxProxy) ++ Path (Url (putAlice [] "" ""))))
     = Ret "alice".
Proof.
  split.
  - destruct (username_extraction okWorld inboxProxy postRoot) as (H & _).
    exact (H eq_refl).
  - destruct (username_extraction okWorld inboxProxy (putAlice [] "" ""))
      as (_ & _ & _ & H).
    destruct (H "alice" "data.bam" eq_refl) as (_ & _ & _ & H').
    + discriminate.
    + reflexivity.
    + discriminate.
    + reflexivity.
    + left; reflexivity.
    + exact H'.
Defined.

(** C8 as stated fails: a POST of [/] is allowed and authenticated, its
    path has no non-empty segment, and the run ends in a panic of the
    rewriter, with no response written. *)
Lemma username_extraction_panics :
  isAllowed (detectRequestType postRoot) = true
  /\ auth inboxProxy postRoot = None
  /\ firstNonEmptySegment (Path (Url postRoot)) = None
  /\ prependBucketToHostPath inboxProxy postRoot = Panic
  /\ ServeHTTP okWorld inboxProxy postRoot = ([EAuthenticate postRoot], Panic).
Proof. repeat (split; [reflexivity|]). reflexivity. Qed.

(* ================================================================== *)
(** * Runs of the handler                                             *)
(* ================================================================== *)

Section Runs.

Variable w : World.
Variable p : Proxy.

Lemma sent_app (t1 t2 : list Effect) : sent (t1 ++ t2)%list = (sent t1 ++ sent t2)%list.
Proof.
  induction t1 as [|e t1 IH]; [reflexivity|].
  destruct e; cbn [sent app]; now rewrite ?IH.
Qed.

Lemma bind_Ret {A B : Type} (t : list Effect) (a : A) (f : A -> M B) :
  bind (t, Ret a) f = ((t ++ trace (f a))%list, outcome (f a)).
Proof. unfold bind, trace, outcome. now destruct (f a). Qed.

(** What follows a computation adds nothing to [sent] when it sends
    nothing itself. *)
Lemma sent_bind_quiet {A B : Type} (m : M A) (f : A -> M B) :
  (forall a, sent (trace (f a)) = []) ->
  sent (trace (bind m f)) = sent (trace m).
Proof.
  intros H. destruct m as [t [a| | |]]; try reflexivity.
  rewrite bind_Ret. unfold trace at 1. cbn [fst]. rewrite sent_app, H.
  apply app_nil_r.
Qed.




Lemma sent_redirectHeaders (h : Header) : sent (trace (redirectHeaders h)) = [].
Proof.
  unfold redirectHeaders, trace. cbn [fst].
  induction h as [|[k vs] h IH]; [reflexivity|].
  cbn [flat_map]. rewrite sent_app, IH, app_nil_r.
  cbn [fst snd]. induction vs as [|v vs IHv]; [reflexivity | exact IHv].
Qed.

Lemma sent_redirectAnswer (resp : Response) :
  sent (trace (redirectAnswer w resp)) = [].
Proof.
  unfold redirectAnswer. rewrite sent_bind_quiet; [apply sent_redirectHeaders|].
  intros _. now destruct (CopyError w).
Qed.

(** [forwardToBackend] keeps the method and the URL of the request, and
    its only effect is the round trip. *)
Lemma forwardToBackend_cases (r : Request) :
  exists t r2 answer,
    forwardToBackend w p r = (t, Ret (r2, answer))
    /\ Method r2 = Method r /\ Url r2 = Url r
    /\ sent t = [] /\ existsb writesResponse t = false.
Proof.
  unfold forwardToBackend.
  destruct (NewRequest w _ _); do 3 eexists; (split; [reflexivity|]);
    repeat (split; [reflexivity|]); reflexivity.
Qed.

(** The run of [allowedResponse] once the request went through. *)
Lemma allowedResponse_forwarded (r r1 r2 : Request)
      (t : list Effect) (resp : Response) :
  auth p r = None ->
  prependBucketToHostPath p r = Ret r1 ->
  forwardToBackend w p r1 = (t, Ret (r2, inl resp)) ->
  allowedResponse w p r =
  bind (EAuthenticate r :: t, Ret tt)
       (fun _ => sendUpstream w p r2 resp ;;; redirectAnswer w resp).
Proof.
  intros HA HP HF. unfold allowedResponse, emit, lift. rewrite HA, HP.
  cbn [bind]. rewrite HF. cbn [bind app].
  now destruct (sendUpstream w p r2 resp ;;; redirectAnswer w resp).
Qed.


End Runs.

(* ================================================================== *)
(** * Errors inside a request                                         *)
(* ================================================================== *)

Lemma isAllowed_arm (t : S3RequestType) : isAllowed t = true -> arm t = Allowed.
Proof. unfold isAllowed. now destruct (arm t). Qed.




(* ================================================================== *)
(** * The event of a completed upload                                 *)
(* ================================================================== *)

Lemma Replace1_prefix (pre x : string) : Replace1 (pre ++ x) pre "" = x.
Proof.
  unfold Replace1. rewrite (Cut_head _ _ (HasPrefix_app pre x)).
  now rewrite drop_app.
Qed.

Lemma bucket_path (b x : string) :
  "/" ++ b ++ String slash x = ("/" ++ b ++ "/") ++ x.
Proof. cbn [append]. f_equal. now rewrite append_assoc. Qed.






(** On a path with an empty first segment the two patterns do not
    agree: the rewriter finds [alice], the event builder, on the rewritten
    path, finds [x]. *)
Lemma username_extraction_disagrees :
  isAllowed (detectRequestType putDoubleSlash) = true
  /\ index1 (FindStringSubmatch reRewriter (Path (Url putDoubleSlash))) = Ret "alice"
  /\ prependBucketToHostPath inboxProxy putDoubleSlash
     = Ret (setPath putDoubleSlash "/inbox//alice/x/y")
  /\ index1 (FindStringSubmatch reEvent "/inbox//alice/x/y") = Ret "x".
Proof. repeat (split; [reflexivity|]). reflexivity. Qed.

(* ================================================================== *)
(** * The shape of every run                                          *)
(* ================================================================== *)

Lemma prependBucketToHostPath_ends (p : Proxy) (r : Request) :
  prependBucketToHostPath p r = Panic \/ exists r1, prependBucketToHostPath p r = Ret r1.
Proof.
  unfold prependBucketToHostPath.
  destruct (index1 _); try (now left).
  repeat match goal with
         | |- context [if ?b then _ else _] => destruct b
         | |- context [match params01 ?x with _ => _ end] => destruct (params01 x) as [[? ?]| | |]
         end; try (now left); right; eexists; reflexivity.
Qed.

(** Every run of the handler is one of five. *)
Lemma ServeHTTP_cases (w : World) (p : Proxy) (r : Request) : ServeCase w p r.
Proof.
  destruct (isAllowed (detectRequestType r)) eqn:HAl.
  - assert (ServeHTTP w p r = allowedResponse w p r) as E.
    { unfold ServeHTTP, serve. now rewrite (isAllowed_arm _ HAl). }
    destruct (auth p r) as [err|] eqn:HA.
    + apply (Unauthorized w p r err HAl HA). rewrite E.
      unfold allowedResponse. now rewrite HA.
    + destruct (prependBucketToHostPath_ends p r) as [HP | [r1 HP]].
      * apply (RewritePanics w p r HAl HA HP). rewrite E.
        unfold allowedResponse. now rewrite HA, HP.
      * destruct (forwardToBackend_cases w p r1) as (t & r2 & answer & HF & _).
        destruct answer as [resp | err].
        -- apply (Forwarded w p r r1 r2 t resp HAl HA HP HF). rewrite E.
           now apply allowedResponse_forwarded with r1.
        -- apply (ForwardFails w p r r1 r2 t err HAl HA HP HF). rewrite E.
           unfold allowedResponse, emit, lift. rewrite HA, HP.
           cbn [bind]. rewrite HF. reflexivity.
  - apply (Denied w p r HAl).
    unfold ServeHTTP, serve. unfold isAllowed in HAl.
    destruct (arm (detectRequestType r)); [reflexivity | discriminate | reflexivity].
Qed.

Lemma trace_bind_In {A B : Type} (m : M A) (f : A -> M B) (e : Effect) :
  In e (trace (bind m f)) ->
  In e (trace m) \/ exists a, outcome m = Ret a /\ In e (trace (f a)).
Proof.
  destruct m as [t [a| | |]]; try (now left).
  rewrite bind_Ret. unfold trace at 1. cbn [fst]. intros H.
  apply in_app_or in H as [H|H]; [now left | right; now exists a].
Qed.

Lemma forwardToBackend_trace (w : World) (p : Proxy) (r : Request) (e : Effect) :
  In e (trace (forwardToBackend w p r)) -> exists nr, e = ERoundTrip nr.
Proof.
  unfold forwardToBackend. destruct (NewRequest w _ _); cbn; [tauto|].
  intros [<-|[]]. now eexists.
Qed.

Lemma requestInfo_trace (w : World) (p : Proxy) (fullPath : string) (e : Effect) :
  In e (trace (requestInfo w p fullPath)) -> lookupEffect e = true.
Proof.
  unfold requestInfo. destruct (NewSession w); cbn; [intros [<-|[]]; reflexivity|].
  destruct (ListObjectsV2 w (bucket (s3 p)) 1 _) as [[|o rest]|err]; cbn;
    try (intros [<-|[<-|[]]]; reflexivity).
  destruct (ETag o); [destruct (Size o)|]; cbn; intros [<-|[<-|[]]]; reflexivity.
Qed.

Lemma CreateMessageFromRequest_trace (w : World) (p : Proxy) (r : Request) (e : Effect) :
  In e (trace (CreateMessageFromRequest w p r)) -> lookupEffect e = true.
Proof.
  unfold CreateMessageFromRequest. intros H.
  apply trace_bind_In in H as [H | (username & _ & H)].
  - destruct (index1 _); destruct H.
  - apply trace_bind_In in H as [H | (info & _ & H)].
    + now apply requestInfo_trace in H.
    + destruct info as [[value filesize] [err|]]; cbn in H; [|tauto].
      destruct H as [<-|[]]. reflexivity.
Qed.

(** How the event builder ends: it never returns an error and never
    waits; when it returns, the event is made of the second segment of
    the path, the path itself and what the lookup returned. *)
Lemma CreateMessageFromRequest_outcome (w : World) (p : Proxy) (r : Request) :
  match outcome (CreateMessageFromRequest w p r) with
  | Ret (ev, err) =>
      err = None /\
      exists username value,
        index1 (FindStringSubmatch reEvent (Path (Url r))) = Ret username
        /\ outcome (requestInfo w p (Path (Url r))) = Ret (value, Filesize ev, None)
        /\ ev = mkEvent "upload" username (Path (Url r)) (Filesize ev)
                        [mkChecksum "md5" value]
  | Block => False
  | _ => True
  end.
Proof.
  unfold CreateMessageFromRequest.
  destruct (index1 (FindStringSubmatch reEvent (Path (Url r)))) as [username| | |] eqn:HU;
    try exact I.
  - unfold lift. rewrite bind_Ret. unfold outcome at 1. cbn [snd].
    pose proof (requestInfo_outcome w p (Path (Url r))) as HO.
    destruct (requestInfo w p (Path (Url r))) as [t [[[value filesize] [err|]]| | |]] eqn:HR;
      cbn; try exact I.
    + split; [reflexivity|]. exists username, value. repeat split. 
    + unfold outcome in HO. cbn [snd] in HO.
      destruct (NewSession w); [discriminate|].
      destruct (ListObjectsV2 w (bucket (s3 p)) 1 _) as [[|o rest]|err]; try discriminate.
      destruct (ETag o); [destruct (Size o)|]; discriminate.
  - unfold index1 in HU.
    destruct (FindStringSubmatch reEvent (Path (Url r))) as [[|? [|? ?]]|]; discriminate.
Qed.

Lemma lookup_trace_quiet (t : list Effect) :
  (forall e, In e t -> lookupEffect e = true) ->
  sent t = [] /\ existsb writesResponse t = false.
Proof.
  induction t as [|e t IH]; intros H; [split; reflexivity|].
  destruct IH as [IH1 IH2]; [intros e' He'; apply H; now right|].
  pose proof (H e (or_introl eq_refl)) as He.
  destruct e; try discriminate; cbn; now rewrite ?IH1, ?IH2.
Qed.

Lemma roundTrip_trace_quiet (t : list Effect) :
  (forall e, In e t -> exists nr, e = ERoundTrip nr) ->
  sent t = [] /\ existsb writesResponse t = false.
Proof.
  induction t as [|e t IH]; intros H; [split; reflexivity|].
  destruct IH as [IH1 IH2]; [intros e' He'; apply H; now right|].
  destruct (H e (or_introl eq_refl)) as [nr ->]. cbn. now rewrite IH1, IH2.
Qed.

(** The events a run hands to a messenger that does not hand events to
    itself: those of the block that follows the backend response. *)
Lemma sendUpstream_sent (w : World) (p : Proxy) (r : Request) (resp : Response) :
  (forall e, sent (trace (messenger p e)) = []) ->
  sent (trace (sendUpstream w p r resp)) = announced w p r resp.
Proof.
  intros HM. unfold sendUpstream, announced.
  destruct (uploadFinishedSuccessfully r resp); [|reflexivity].
  pose proof (CreateMessageFromRequest_trace w p r) as HT.
  destruct (CreateMessageFromRequest w p r) as [t [[ev err]| | |]];
    unfold trace, outcome in *; cbn [fst snd] in *;
    destruct (lookup_trace_quiet t HT) as [Hs _]; try exact Hs.
  rewrite bind_Ret. unfold trace at 1. cbn [fst].
  rewrite sent_app, Hs. unfold emit. rewrite bind_Ret.
  unfold trace at 1. cbn [fst app sent]. f_equal.
  pose proof (sent_bind_quiet (messenger p ev) (fun _ => ret tt) (fun _ => eq_refl)) as Hq.
  unfold trace in Hq. rewrite Hq. apply HM.
Qed.

Lemma ServeHTTP_sent (w : World) (p : Proxy) (r r1 r2 : Request)
      (t : list Effect) (resp : Response) :
  (forall e, sent (trace (messenger p e)) = []) ->
  forwardToBackend w p r1 = (t, Ret (r2, inl resp)) ->
  ServeHTTP w p r =
    bind (EAuthenticate r :: t, Ret tt)
         (fun _ => sendUpstream w p r2 resp ;;; redirectAnswer w resp) ->
  sent (trace (ServeHTTP w p r)) = announced w p r2 resp.
Proof.
  intros HM HF E. rewrite E, bind_Ret. unfold trace at 1. cbn [fst].
  rewrite sent_app. cbn [sent].
  destruct (roundTrip_trace_quiet t) as [Hs _].
  { intros e He. apply (forwardToBackend_trace w p r1). now rewrite HF. }
  rewrite Hs. cbn [app].
  rewrite sent_bind_quiet by (intros; apply sent_redirectAnswer).
  now apply sendUpstream_sent.
Qed.

Lemma sendUpstream_trace (w : World) (p : Proxy) (r : Request) (resp : Response)
      (e : Effect) :
  In e (trace (sendUpstream w p r resp)) ->
  lookupEffect e = true
  \/ (exists ev, e = ESendMessage ev)
  \/ (exists ev, In e (trace (messenger p ev))).
Proof.
  unfold sendUpstream. destruct (uploadFinishedSuccessfully r resp); [|intros []].
  intros H. apply trace_bind_In in H as [H | (created & _ & H)].
  - left. now apply CreateMessageFromRequest_trace in H.
  - apply trace_bind_In in H as [H | (_ & _ & H)].
    + destruct H as [<-|[]]. right; left. now eexists.
    + apply trace_bind_In in H as [H | (_ & _ & [])].
      right; right. exists (fst created). exact H.
Qed.

Lemma redirectAnswer_trace (w : World) (resp : Response) (e : Effect) :
  In e (trace (redirectAnswer w resp)) -> relayEffect e = true.
Proof.
  unfold redirectAnswer. intros H.
  apply trace_bind_In in H as [H | (_ & _ & H)].
  - unfold redirectHeaders, trace in H. cbn [fst] in H.
    apply in_flat_map in H as (kv & _ & H).
    apply in_map_iff in H as (v & <- & _). reflexivity.
  - apply trace_bind_In in H as [H | (_ & _ & H)].
    + destruct H as [<-|[]]. reflexivity.
    + destruct (CopyError w); cbn in H; [|tauto].
      destruct H as [<-|[]]. reflexivity.
Qed.

(** The rewriter keeps the method. *)
Lemma prependBucketToHostPath_Method (p : Proxy) (r r1 : Request) :
  prependBucketToHostPath p r = Ret r1 -> Method r1 = Method r.
Proof.
  unfold prependBucketToHostPath.
  destruct (index1 _); try discriminate.
  repeat match goal with
         | |- context [if ?b then _ else _] => destruct b
         | |- context [match params01 ?x with _ => _ end] =>
             destruct (params01 x) as [[? ?]| | |]
         end; try discriminate; intros [= <-]; reflexivity.
Qed.

(** On PUT and POST the rewriter puts the bucket in front of the path. *)
Lemma prependBucketToHostPath_upload (p : Proxy) (r r1 : Request) :
  Method r = "PUT" \/ Method r = "POST" ->
  prependBucketToHostPath p r = Ret r1 ->
  r1 = setPath r ("/" ++ bucket (s3 p) ++ Path (Url r)).
Proof.
  unfold prependBucketToHostPath. intros HM.
  destruct (index1 _); try discriminate.
  destruct HM as [-> | ->]; cbn; intros [= <-]; reflexivity.
Qed.

Lemma HasPrefix_app_more (a sub y : string) :
  HasPrefix a sub = true -> HasPrefix (a ++ y) sub = true.
Proof.
  revert a; induction sub as [|c sub IH]; intros a H; [apply HasPrefix_nil|].
  destruct a as [|d a]; [discriminate|]. cbn in *.
  apply andb_true_iff in H as [H1 H2]. rewrite H1. cbn. now apply IH.
Qed.

Lemma Contains_app_right (a sub y : string) :
  Contains a sub = true -> Contains (a ++ y) sub = true.
Proof.
  induction a as [|d a IH]; cbn [Contains append]; intros H.
  - rewrite orb_false_r in H.
    destruct sub; [destruct y; reflexivity | discriminate].
  - apply orb_true_iff in H as [H|H]; apply orb_true_iff.
    + left. now apply (HasPrefix_app_more (String d a) sub y).
    + right. now apply IH.
Qed.

Lemma Contains_app_left (x a sub : string) :
  Contains a sub = true -> Contains (x ++ a) sub = true.
Proof.
  induction x as [|d x IH]; intros H; [exact H|].
  cbn [append Contains]. rewrite (IH H). apply orb_true_r.
Qed.

(** What it takes for a run to announce an event. *)
Lemma ServeHTTP_events (w : World) (p : Proxy) (r : Request) :
  (forall e, sent (trace (messenger p e)) = []) ->
  sent (trace (ServeHTTP w p r)) = []
  \/ exists ev r1 r2 t resp,
      sent (trace (ServeHTTP w p r)) = [ev]
      /\ isAllowed (detectRequestType r) = true
      /\ auth p r = None
      /\ prependBucketToHostPath p r = Ret r1
      /\ forwardToBackend w p r1 = (t, Ret (r2, inl resp))
      /\ StatusCode resp = 200%Z
      /\ (Method r = "PUT" /\ Contains (URL_String (Url r1)) "partNumber" = false
          \/ Method r = "POST" /\ Contains (URL_String (Url r1)) "uploadId" = true)
      /\ outcome (CreateMessageFromRequest w p r2) = Ret (ev, None).
Proof.
  intros HM.
  destruct (ServeHTTP_cases w p r) as
    [HAl E | err HAl HA E | HAl HA HP E | r1 r2 t err HAl HA HP HF E
     | r1 r2 t resp HAl HA HP HF E].
  - left. now rewrite E.
  - left. now rewrite E.
  - left. now rewrite E.
  - left. rewrite E. cbn [trace fst sent]. rewrite sent_app.
    destruct (roundTrip_trace_quiet t) as [Hs _].
    { intros e He. apply (forwardToBackend_trace w p r1). now rewrite HF. }
    now rewrite Hs.
  - rewrite (ServeHTTP_sent w p r r1 r2 t resp HM HF E).
    unfold announced.
    destruct (uploadFinishedSuccessfully r2 resp) eqn:HUp; [|now left].
    pose proof (CreateMessageFromRequest_outcome w p r2) as HO.
    destruct (outcome (CreateMessageFromRequest w p r2)) as [[ev e]| | |] eqn:HC;
      try (now left).
    destruct HO as [-> _]. right. exists ev, r1, r2, t, resp.
    destruct (forwardToBackend_cases w p r1) as (t' & r2' & ans & HF' & HMe & HUrl & _).
    rewrite HF in HF'. injection HF' as <- <- <-.
    pose proof (prependBucketToHostPath_Method p r r1 HP) as HMr.
    repeat (split; [assumption || reflexivity|]).
    unfold uploadFinishedSuccessfully in HUp. rewrite HMe, HUrl, HMr in HUp.
    destruct (Z.eqb_spec (StatusCode resp) 200) as [HS|HS]; cbn [negb] in HUp;
      [|discriminate].
    split; [exact HS|]. split; [|exact HC].
    unfold MethodPut, MethodPost in HUp.
    destruct (String.eqb_spec (Method r) "PUT") as [HPut|HPut].
    + destruct (Contains (URL_String (Url r1)) "partNumber") eqn:HC1.
      * cbn in HUp. rewrite HPut in HUp. cbn in HUp. discriminate.
      * left. now split.
    + cbn [andb] in HUp.
      destruct (String.eqb_spec (Method r) "POST") as [HPost|HPost]; [|discriminate].
      right. split; [exact HPost|].
      now destruct (Contains (URL_String (Url r1)) "uploadId").
Qed.

(* ================================================================== *)
(** * The gate on requests                                            *)
(* ================================================================== *)

(** X1.  Which requests pass the gate, read on the request itself: a GET
    passes when its URL string neither ends in [/] nor contains [?acl]; a
    DELETE passes when its URL string does not end in [/] and contains
    [uploadId]; a PUT passes when its URL string neither ends in [/] nor
    contains [?policy]; every other method passes.  A request that does
    not pass gets the 403 response, one that passes runs
    [allowedResponse]. *)
Theorem gate_on_requests (w : World) (p : Proxy) (r : Request) :
  let u := URL_String (Url r) in
  let passes :=
    if String.eqb (Method r) "GET"
    then negb (HasSuffix u "/") && negb (Contains u "?acl")
    else if String.eqb (Method r) "DELETE"
    then negb (HasSuffix u "/") && Contains u "uploadId"
    else if String.eqb (Method r) "PUT"
    then negb (HasSuffix u "/") && negb (Contains u "?policy")
    else true in
  isAllowed (detectRequestType r) = passes
  /\ ServeHTTP w p r =
     if passes then allowedResponse w p r else ([EWriteHeader 403], Ret tt).
Proof.
  cbv zeta.
  assert (forall b : bool,
             isAllowed (detectRequestType r) = b ->
             ServeHTTP w p r =
             if b then allowedResponse w p r else ([EWriteHeader 403], Ret tt)) as HS.
  { intros b <-. unfold ServeHTTP, serve, isAllowed.
    now destruct (arm (detectRequestType r)). }
  assert (isAllowed (detectRequestType r) =
          if String.eqb (Method r) "GET"
          then negb (HasSuffix (URL_String (Url r)) "/")
               && negb (Contains (URL_String (Url r)) "?acl")
          else if String.eqb (Method r) "DELETE"
          then negb (HasSuffix (URL_String (Url r)) "/")
               && Contains (URL_String (Url r)) "uploadId"
          else if String.eqb (Method r) "PUT"
          then negb (HasSuffix (URL_String (Url r)) "/")
               && negb (Contains (URL_String (Url r)) "?policy")
          else true) as HG.
  { unfold detectRequestType, MethodGet, MethodDelete, MethodPut.
    destruct (String.eqb (Method r) "GET");
      [|destruct (String.eqb (Method r) "DELETE");
        [|destruct (String.eqb (Method r) "PUT")]];
      repeat match goal with
             | |- context [if ?b then _ else _] => destruct b
             end; reflexivity. }
  split; [exact HG | now apply HS].
Qed.

(** X2.  A GET, PUT or DELETE is denied with 403, and nothing else
    happens, as soon as its URL string ends in a slash: the path ends in
    [/] and there is no query part, or the raw query is not empty and ends
    in [/]. *)
Theorem trailing_slash_denied (w : World) (p : Proxy) (r : Request) :
  Method r = "GET" \/ Method r = "PUT" \/ Method r = "DELETE" ->
  (RawQuery (Url r) = "" /\ ForceQuery (Url r) = false
   /\ HasSuffix (Path (Url r)) "/" = true)
  \/ (RawQuery (Url r) <> "" /\ HasSuffix (RawQuery (Url r)) "/" = true) ->
  ServeHTTP w p r = ([EWriteHeader 403], Ret tt).
Proof.
  intros HM HQ.
  assert (HasSuffix (URL_String (Url r)) "/" = true) as HS.
  { rewrite URL_String_slash. destruct HQ as [(-> & -> & H) | (Hq & H)].
    - exact H.
    - apply String.eqb_neq in Hq. now rewrite Hq. }
  unfold ServeHTTP, serve, detectRequestType, MethodGet, MethodDelete, MethodPut.
  rewrite HS. destruct HM as [-> | [-> | ->]]; reflexivity.
Qed.

Lemma trailing_slash_denied_witness :
  ServeHTTP okWorld inboxProxy listWithPrefix = ([EWriteHeader 403], Ret tt).
Proof.
  apply trailing_slash_denied.
  - left; reflexivity.
  - right. split; [discriminate | reflexivity].
Defined.

(* ================================================================== *)
(** * What a run writes, calls and announces                          *)
(* ================================================================== *)

(** X3.  The only status codes the handler sets are 401, 403 and 500,
    whatever the backend answers (the messenger writes no status). *)
Theorem status_codes (w : World) (p : Proxy) (r : Request) (code : Z) :
  (forall ev e, In e (trace (messenger p ev)) -> isWriteHeader e = false) ->
  In (EWriteHeader code) (trace (ServeHTTP w p r)) ->
  code = 401%Z \/ code = 403%Z \/ code = 500%Z.
Proof.
  intros HM.
  destruct (ServeHTTP_cases w p r) as
    [HAl E | err HAl HA E | HAl HA HP E | r1 r2 t err HAl HA HP HF E
     | r1 r2 t resp HAl HA HP HF E]; rewrite E.
  - intros [[= <-]|[]]. right; now left.
  - intros [H|[[= <-]|[]]]; [discriminate | now left].
  - intros [H|[]]. discriminate.
  - cbn [trace fst]. intros [H|H]; [discriminate|].
    apply in_app_or in H as [H|[[= <-]|[]]]; [|right; now right].
    destruct (forwardToBackend_trace w p r1 (EWriteHeader code)) as [nr Hnr];
      [now rewrite HF | discriminate].
  - intros H. apply trace_bind_In in H as [[H|H] | (_ & _ & H)].
    + discriminate.
    + destruct (forwardToBackend_trace w p r1 (EWriteHeader code)) as [nr Hnr];
        [now rewrite HF | discriminate].
    + apply trace_bind_In in H as [H | (_ & _ & H)].
      * apply sendUpstream_trace in H as [H | [[ev H] | [ev H]]];
          [discriminate | discriminate |].
        apply HM in H. discriminate.
      * apply redirectAnswer_trace in H. discriminate.
Qed.

Lemma status_codes_witness :
  In (EWriteHeader 403) (trace (ServeHTTP okWorld inboxProxy deleteObject))
  /\ (403 = 401 \/ 403 = 403 \/ 403 = 500)%Z.
Proof.
  assert (In (EWriteHeader 403) (trace (ServeHTTP okWorld inboxProxy deleteObject))) as H
    by (left; reflexivity).
  split; [exact H|].
  apply (status_codes okWorld inboxProxy deleteObject 403); [|exact H].
  intros ev e []. 
Defined.





(** X6.  No call to the backend happens in a run unless the request
    passed the gate, the caller is authenticated and the rewriter
    returned. *)
Theorem backend_only_after_authentication (w : World) (p : Proxy) (r : Request) :
  existsb callsBackend (trace (ServeHTTP w p r)) = true ->
  isAllowed (detectRequestType r) = true
  /\ auth p r = None
  /\ exists r1, prependBucketToHostPath p r = Ret r1.
Proof.
  destruct (ServeHTTP_cases w p r) as
    [HAl E | err HAl HA E | HAl HA HP E | r1 r2 t err HAl HA HP HF E
     | r1 r2 t resp HAl HA HP HF E].
  - rewrite E. discriminate.
  - rewrite E. discriminate.
  - rewrite E. discriminate.
  - intros _. repeat split; try assumption. now exists r1.
  - intros _. repeat split; try assumption. now exists r1.
Qed.

Lemma backend_only_after_authentication_witness :
  auth inboxProxy (putAlice [] "" "") = None.
Proof.
  exact (proj1 (proj2 (backend_only_after_authentication
                         okWorld inboxProxy (putAlice [] "" "") eq_refl))).
Defined.

(** X7.  The completion test reads the URL string, path included: a PUT
    whose path contains [partNumber] never has its upload announced,
    whatever the backend answers (the messenger hands no event to
    itself). *)
Theorem partNumber_in_path_no_event (w : World) (p : Proxy) (r : Request) :
  (forall e, sent (trace (messenger p e)) = []) ->
  Method r = "PUT" ->
  Contains (Path (Url r)) "partNumber" = true ->
  sent (trace (ServeHTTP w p r)) = [].
Proof.
  intros HM HPut HC.
  destruct (ServeHTTP_events w p r HM)
    as [H | (ev & r1 & r2 & t & resp & _ & _ & _ & HP & _ & _ & HU & _)];
    [exact H|].
  exfalso.
  pose proof (prependBucketToHostPath_upload p r r1 (or_introl HPut) HP) as ->.
  destruct HU as [[_ HU] | [HPost _]]; [|congruence].
  unfold URL_String in HU. cbn [setPath Url Path RawQuery ForceQuery] in HU.
  rewrite Contains_app_right in HU; [discriminate|].
  change ("/" ++ bucket (s3 p) ++ Path (Url r))
    with (("/" ++ bucket (s3 p)) ++ Path (Url r)).
  now apply Contains_app_left.
Qed.

Lemma partNumber_in_path_no_event_witness :
  sent (trace (ServeHTTP okWorld inboxProxy putPartNumberName)) = [].
Proof.
  apply partNumber_in_path_no_event; [intros e | |]; reflexivity.
Defined.

(* ================================================================== *)
(** * The rewriter, the other branches                                *)
(* ================================================================== *)

Lemma Contains_self (s : string) : Contains s s = true.
Proof.
  destruct s as [|c s]; [reflexivity|]. cbn [Contains].
  pose proof (HasPrefix_app (String c s) "") as H. rewrite append_nil_r in H.
  now rewrite H.
Qed.

Lemma Contains_middle (a s b : string) : Contains (a ++ s ++ b) s = true.
Proof. apply Contains_app_left, Contains_app_right, Contains_self. Qed.

Lemma Contains_inner (a m u t b : string) :
  Contains (a ++ m ++ u ++ t ++ b) (m ++ u ++ t) = true.
Proof.
  replace (a ++ m ++ u ++ t ++ b) with (a ++ (m ++ u ++ t) ++ b)
    by now rewrite !append_assoc.
  apply Contains_middle.
Qed.

(** X8.  What the rewriter leaves alone: the method, the headers, the
    host, the body and the [?] flag of the URL never change; the path
    stays, or becomes the bucket root, or gets the bucket in front; and
    the raw query stays unless the request is a GET with [?delimiter], in
    which case the new query contains [&prefix=<username>%2F]. *)
Theorem rewriter_frame (p : Proxy) (r r1 : Request) :
  prependBucketToHostPath p r = Ret r1 ->
  Method r1 = Method r /\ ReqHeader r1 = ReqHeader r
  /\ Host r1 = Host r /\ Body r1 = Body r
  /\ ForceQuery (Url r1) = ForceQuery (Url r)
  /\ (Path (Url r1) = Path (Url r)
      \/ Path (Url r1) = "/" ++ bucket (s3 p) ++ "/"
      \/ Path (Url r1) = "/" ++ bucket (s3 p) ++ Path (Url r))
  /\ (RawQuery (Url r1) = RawQuery (Url r)
      \/ exists username,
          Method r = "GET"
          /\ Contains (URL_String (Url r)) "?delimiter" = true
          /\ index1 (FindStringSubmatch reRewriter (Path (Url r))) = Ret username
          /\ Contains (RawQuery (Url r1)) ("&prefix=" ++ username ++ "%2F") = true).
Proof.
  unfold prependBucketToHostPath.
  destruct (index1 (FindStringSubmatch reRewriter (Path (Url r)))) as [username| | |];
    try discriminate.
  destruct (String.eqb_spec (Method r) MethodGet) as [HG|HG]; cbn [andb].
  - destruct (Contains (URL_String (Url r)) "?delimiter") eqn:HD.
    + destruct (Contains (RawQuery (Url r)) "&prefix").
      * destruct (params01 _) as [[p0 p1]| | |]; try discriminate.
        intros [= <-]. cbn. repeat (split; [reflexivity|]).
        split; [right; now left|]. right. exists username.
        repeat (split; [assumption || reflexivity|]).
        exact (Contains_inner p0 "&prefix=" username "%2F" p1).
      * intros [= <-]. cbn. repeat (split; [reflexivity|]).
        split; [right; now left|]. right. exists username.
        repeat (split; [assumption || reflexivity|]).
        pose proof (Contains_inner (RawQuery (Url r)) "&prefix=" username "%2F" "") as H.
        rewrite !append_nil_r in H. exact H.
    + destruct (Contains (URL_String (Url r)) "?location").
      * intros [= <-]. cbn. repeat (split; [reflexivity|]).
        split; [right; now left | now left].
      * destruct (String.eqb (Method r) MethodPost || String.eqb (Method r) MethodPut).
        -- intros [= <-]. cbn. repeat (split; [reflexivity|]).
           split; [right; now right | now left].
        -- intros [= <-]. repeat (split; [reflexivity|]). split; now left.
  - destruct (String.eqb (Method r) MethodPost || String.eqb (Method r) MethodPut).
    + intros [= <-]. cbn. repeat (split; [reflexivity|]).
      split; [right; now right | now left].
    + intros [= <-]. repeat (split; [reflexivity|]). split; now left.
Qed.

Lemma rewriter_frame_witness :
  Method (setPathQuery listNoPrefix "/inbox/" "delimiter=%2F&prefix=alice%2F") = "GET"
  /\ ReqHeader (setPathQuery listNoPrefix "/inbox/" "delimiter=%2F&prefix=alice%2F")
     = ReqHeader listNoPrefix.
Proof.
  destruct (rewriter_frame inboxProxy listNoPrefix
              (setPathQuery listNoPrefix "/inbox/" "delimiter=%2F&prefix=alice%2F")
              eq_refl) as (H1 & H2 & _).
  split; assumption.
Defined.

(** X9.  Outside the listing with a delimiter, with a username found in
    the path: a GET whose URL string contains [?location] gets the bucket
    root as its path; a PUT or a POST gets the bucket in front of its
    path; every other request (a GET without these markers, a DELETE, any
    other method) is returned as it came, its path without the bucket. *)
Theorem rewriter_other_branches (p : Proxy) (r : Request) (username : string) :
  index1 (FindStringSubmatch reRewriter (Path (Url r))) = Ret username ->
  (Method r = "GET" ->
   Contains (URL_String (Url r)) "?delimiter" = false ->
   Contains (URL_String (Url r)) "?location" = true ->
   prependBucketToHostPath p r = Ret (setPath r ("/" ++ bucket (s3 p) ++ "/")))
  /\ (Method r = "PUT" \/ Method r = "POST" ->
      prependBucketToHostPath p r
      = Ret (setPath r ("/" ++ bucket (s3 p) ++ Path (Url r))))
  /\ ((Method r = "GET"
       /\ Contains (URL_String (Url r)) "?delimiter" = false
       /\ Contains (URL_String (Url r)) "?location" = false)
      \/ (Method r <> "GET" /\ Method r <> "PUT" /\ Method r <> "POST") ->
      prependBucketToHostPath p r = Ret r).
Proof.
  intros HU. unfold prependBucketToHostPath. rewrite HU.
  split; [|split].
  - intros -> HD HL. cbn. now rewrite HD, HL.
  - intros [-> | ->]; reflexivity.
  - intros [(-> & HD & HL) | (HG & HPut & HPost)].
    + cbn. now rewrite HD, HL.
    + unfold MethodGet, MethodPost, MethodPut.
      apply String.eqb_neq in HG, HPut, HPost. now rewrite HG, HPut, HPost.
Qed.

Lemma rewriter_other_branches_witness :
  prependBucketToHostPath inboxProxy getLocation = Ret (setPath getLocation "/inbox/")
  /\ isAllowed (detectRequestType abortUpload) = true
  /\ prependBucketToHostPath inboxProxy abortUpload = Ret abortUpload.
Proof.
  split; [|split; [reflexivity|]].
  - destruct (rewriter_other_branches inboxProxy getLocation "alice" eq_refl) as (H & _).
    exact (H eq_refl eq_refl eq_refl).
  - destruct (rewriter_other_branches inboxProxy abortUpload "alice" eq_refl)
      as (_ & _ & H).
    apply H. right. repeat split; discriminate.
Defined.

Lemma Split_without (s sep : string) :
  sep <> "" -> Contains s sep = false -> Split s sep = [s].
Proof.
  intros Hsep HC. unfold Split. destruct sep as [|c sep]; [congruence|].
  rewrite Cut_Contains in HC.
  destruct (String.length s); cbn [splitLoop]; [reflexivity|].
  now destruct (Cut s (String c sep)) as [[? ?]|].
Qed.

(** X10.  A listing with a delimiter whose raw query contains [&prefix]
    but no [&prefix=] makes the rewriter panic: the split has one piece
    and the second one is read. *)
Theorem rewriter_prefix_without_value (p : Proxy) (r : Request) (username : string) :
  index1 (FindStringSubmatch reRewriter (Path (Url r))) = Ret username ->
  Method r = "GET" ->
  Contains (URL_String (Url r)) "?delimiter" = true ->
  Contains (RawQuery (Url r)) "&prefix" = true ->
  Contains (RawQuery (Url r)) "&prefix=" = false ->
  prependBucketToHostPath p r = Panic.
Proof.
  intros HU HM HD HP HE. unfold prependBucketToHostPath.
  rewrite HU, HM. cbn [String.eqb MethodGet Ascii.eqb Bool.eqb andb].
  rewrite HD, HP, (Split_without _ "&prefix=") by (discriminate || exact HE).
  reflexivity.
Qed.

Lemma rewriter_prefix_without_value_witness :
  isAllowed (detectRequestType listBrokenPrefix) = true
  /\ prependBucketToHostPath inboxProxy listBrokenPrefix = Panic.
Proof.
  split; [reflexivity|].
  now apply (rewriter_prefix_without_value inboxProxy listBrokenPrefix "alice").
Defined.

(* ================================================================== *)
(** * Re-signing and forwarding                                       *)
(* ================================================================== *)

Lemma filter_filter_and {A : Type} (f g : A -> bool) (l : list A) :
  filter g (filter f l) = filter (fun x => f x && g x) l.
Proof.
  induction l as [|x l IH]; [reflexivity|]. cbn [filter].
  destruct (f x); cbn [filter andb]; [destruct (g x)|]; now rewrite IH.
Qed.

(** Dropping header names one after the other is one filter. *)
Lemma fold_left_Header_Del (keys : list string) (h : Header) :
  fold_left Header_Del keys h
  = filter (fun kv => negb (existsb (String.eqb (fst kv)) keys)) h.
Proof.
  revert h; induction keys as [|k keys IH]; intros h; cbn [fold_left existsb].
  - induction h as [|kv h IHh]; [reflexivity|]. cbn [filter negb]. now f_equal.
  - rewrite IH. unfold Header_Del. rewrite filter_filter_and.
    apply filter_ext. intros kv. now rewrite negb_orb.
Qed.



(** What [resignHeader] does, in one step. *)
Lemma resignHeader_toSign (w : World) (p : Proxy) (r : Request)
      (accessKey secretKey backendURL : string) :
  resignHeader w p r accessKey secretKey backendURL
  = mkRequest (Method r) (Url r)
              (SignV4 w (toSign r backendURL) accessKey secretKey (region (s3 p)))
              (Host (toSign r backendURL)) (Body r).
Proof.
  unfold resignHeader, toSign. cbn [Method Url ReqHeader Host Body].
  rewrite (fold_left_Header_Del _ (ReqHeader r)).
  assert ((if Contains backendURL "//"
           then nth 1 (SplitN2 backendURL "//") ""
           else Host r)
          = match Cut backendURL "//" with
            | Some (_, after) => after
            | None => Host r
            end) as ->.
  { rewrite Cut_Contains. unfold SplitN2.
    now destruct (Cut backendURL "//") as [[a b]|]. }
  reflexivity.
Qed.






Lemma ParseInt_empty : Strconv.ParseInt "" = (0%Z, Some "invalid syntax").
Proof. reflexivity. Qed.



(** [ParseInt] reads back what [decimal] writes. *)
Lemma parseDigits_acc (d : Decimal.uint) (acc : positive) :
  Strconv.parseDigits (NilEmpty.string_of_uint d) (Zpos acc)
  = Some (Zpos (Pos.of_uint_acc d acc)).
Proof.
  revert acc; induction d; intros acc;
    cbn [NilEmpty.string_of_uint Strconv.parseDigits Pos.of_uint_acc];
    [reflexivity | ..];
    match goal with
    | |- context [Strconv.digitValue ?c] =>
        let v := eval vm_compute in (Strconv.digitValue c) in
        change (Strconv.digitValue c) with v
    end;
    cbv iota; rewrite <- IHd; f_equal; lia.
Qed.

Lemma parseDigits_of_uint (d : Decimal.uint) :
  Strconv.parseDigits (NilEmpty.string_of_uint d) 0 = Some (Z.of_N (Pos.of_uint d)).
Proof.
  induction d; cbn [NilEmpty.string_of_uint Strconv.parseDigits Pos.of_uint];
    [reflexivity | exact IHd | ..];
    match goal with
    | |- context [Strconv.digitValue ?c] =>
        let v := eval vm_compute in (Strconv.digitValue c) in
        change (Strconv.digitValue c) with v
    end;
    cbv iota; cbn [Z.mul Z.add Z.of_N]; apply parseDigits_acc.
Qed.

(** [ParseInt] on the decimal text of a number that is not negative: the
    number, or the largest [int64] with a range error. *)
Lemma ParseInt_decimal (n : Z) :
  (0 <= n)%Z ->
  Strconv.ParseInt (decimal n)
  = if (2 ^ 63 <=? n)%Z then ((2 ^ 63 - 1)%Z, Some "value out of range") else (n, None).
Proof.
  intros Hn. unfold decimal.
  pose proof (DecimalN.Unsigned.of_to (Z.to_N n)) as HN. unfold N.of_uint in HN.
  pose proof (parseDigits_of_uint (N.to_uint (Z.to_N n))) as HP.
  rewrite HN, Z2N.id in HP by lia. clear HN.
  unfold NilZero.string_of_uint.
  destruct (N.to_uint (Z.to_N n)) eqn:E;
    [cbn in HP; injection HP as <-; reflexivity | ..];
    unfold Strconv.ParseInt; cbn [NilEmpty.string_of_uint] in *;
    match goal with
    | |- context [Ascii.eqb ?c "+"] =>
        change (Ascii.eqb c "+") with false; change (Ascii.eqb c "-") with false
    end;
    cbn [orb negb andb]; rewrite HP; reflexivity.
Qed.

(** X13.  The content length the backend is sent is the number the signed
    [Content-Length] header spells in decimal, and the largest [int64]
    when that number does not fit: the range error is dropped with the
    others. *)
Theorem forwardToBackend_content_length (w : World) (p : Proxy) (r : Request) (n : Z) :
  let r1 := resignHeader w p r (accessKey (s3 p)) (secretKey (s3 p)) (url (s3 p)) in
  NewRequest w (Method r) (url (s3 p) ++ URL_String (Url r)) = None ->
  (0 <= n)%Z ->
  Header_Get (ReqHeader r1) "Content-Length" = decimal n ->
  exists nr,
    trace (forwardToBackend w p r) = [ERoundTrip nr]
    /\ OutContentLength nr = Z.min n (2 ^ 63 - 1).
Proof.
  cbv zeta. intros HN Hn HH. unfold forwardToBackend.
  rewrite resignHeader_toSign in *. cbn [Method Url ReqHeader Body] in *.
  rewrite HN, HH, (ParseInt_decimal n Hn).
  eexists. split; [reflexivity|]. cbn [OutContentLength].
  destruct (Z.leb_spec (2 ^ 63) n); cbn [fst]; lia.
Qed.

Lemma forwardToBackend_content_length_witness :
  exists nr,
    trace (forwardToBackend okWorld inboxProxy (putWithHeaders clientHeaders))
    = [ERoundTrip nr]
    /\ OutContentLength nr = 7%Z.
Proof.
  exact (forwardToBackend_content_length okWorld inboxProxy
           (putWithHeaders clientHeaders) 7 eq_refl ltac:(lia) eq_refl).
Defined.

(* ================================================================== *)
(** * The metadata lookup and the event builder                       *)
(* ================================================================== *)

Lemma noByte_app (c : ascii) (a b : string) :
  noByte c (a ++ b) = noByte c a && noByte c b.
Proof.
  induction a as [|d a IH]; [reflexivity|].
  cbn [append noByte]. now rewrite IH, andb_assoc.
Qed.

(** Cutting at a byte: the piece before it does not have the byte, and
    the rest is shorter; without a cut the byte is nowhere. *)
Lemma Cut_at_byte (c : ascii) (s : string) :
  match Cut s (String c "") with
  | Some (before, after) =>
      noByte c before = true /\ (String.length after < String.length s)%nat
  | None => noByte c s = true
  end.
Proof.
  induction s as [|d s IH]; [reflexivity|].
  cbn [Cut HasPrefix].
  destruct (Ascii.eqb_spec c d) as [<-|Hne].
  - rewrite HasPrefix_nil. cbn [andb String.length drop noByte].
    split; [reflexivity | lia].
  - cbn [andb]. destruct (Cut s (String c "")) as [[b a]|].
    + destruct IH as [Hb Ha]. cbn [noByte String.length]. split; [|lia].
      rewrite Hb, andb_true_r. apply negb_true_iff. apply Ascii.eqb_neq. congruence.
    + cbn [noByte]. rewrite IH, andb_true_r.
      apply negb_true_iff. apply Ascii.eqb_neq. congruence.
Qed.

Lemma splitLoop_noByte (c : ascii) (n : nat) (s : string) :
  (String.length s <= n)%nat ->
  forallb (noByte c) (splitLoop n s (String c "")) = true.
Proof.
  revert s; induction n as [|n IH]; intros s Hn.
  - destruct s; [reflexivity | cbn in Hn; lia].
  - cbn [splitLoop]. pose proof (Cut_at_byte c s) as HC.
    destruct (Cut s (String c "")) as [[b a]|].
    + destruct HC as [Hb Ha]. cbn [forallb]. rewrite Hb. apply IH. lia.
    + cbn [forallb]. now rewrite HC.
Qed.

Lemma Join_noByte (c : ascii) (l : list string) :
  forallb (noByte c) l = true -> noByte c (Join l "") = true.
Proof.
  induction l as [|x l IH]; [reflexivity|].
  cbn [forallb]. intros H. apply andb_true_iff in H as [Hx Hl].
  destruct l as [|y l]; [exact Hx|].
  change (Join (x :: y :: l) "") with (x ++ "" ++ Join (y :: l) "").
  cbn [append]. rewrite noByte_app, Hx. now apply IH.
Qed.

(** Removing every double quote leaves none. *)
Lemma ReplaceAll_noByte (s : string) :
  noByte (ascii_of_nat 34) (ReplaceAll s dquote "") = true.
Proof.
  unfold ReplaceAll, dquote, Split. apply Join_noByte. now apply splitLoop_noByte.
Qed.

(** The checksum of [requestInfo] has no double quote. *)
Lemma requestInfo_noquote (w : World) (p : Proxy) (fullPath value : string)
      (size : Z) (err : option error) :
  outcome (requestInfo w p fullPath) = Ret (value, size, err) ->
  noByte (ascii_of_nat 34) value = true.
Proof.
  rewrite requestInfo_outcome.
  destruct (NewSession w); [now intros [= <- _ _]|].
  destruct (ListObjectsV2 w (bucket (s3 p)) 1 _) as [[|o rest]|e];
    [discriminate | | now intros [= <- _ _]].
  destruct (ETag o) as [etag|]; [|discriminate].
  destruct (Size o); [|discriminate].
  intros [= <- _ _]. apply ReplaceAll_noByte.
Qed.

(** The calls of [requestInfo], in order. *)
Lemma requestInfo_calls (w : World) (p : Proxy) (fullPath : string) :
  trace (requestInfo w p fullPath)
  = ENewSession ::
    match NewSession w with
    | Some _ => []
    | None => [EListObjectsV2 (bucket (s3 p)) 1
                 (Replace1 fullPath ("/" ++ bucket (s3 p) ++ "/") "")]
    end.
Proof.
  unfold requestInfo. destruct (NewSession w); [reflexivity|]. cbn.
  destruct (ListObjectsV2 w (bucket (s3 p)) 1 _) as [[|o rest]|e]; try reflexivity.
  cbn. destruct (ETag o); [|reflexivity]. destruct (Size o); reflexivity.
Qed.

Lemma Replace1_absent (s old : string) :
  Contains s old = false -> Replace1 s old "" = s.
Proof.
  intros H. unfold Replace1. rewrite Cut_Contains in H.
  now destruct (Cut s old) as [[? ?]|].
Qed.

(** X14.  The lookup of [requestInfo]: a session is asked for first; when
    there is none, the backend is not listed and the error is returned;
    otherwise one listing follows, of the configured bucket, for one key
    at most, under the path less its first [/bucket/] (the key, for a path
    that starts with it; the whole path, slash included, for a path that
    does not have it).  The checksum returned never has a double quote. *)
Theorem requestInfo_lookup (w : World) (p : Proxy) (fullPath : string) :
  (forall err,
      NewSession w = Some err ->
      requestInfo w p fullPath = ([ENewSession], Ret ("", 0%Z, Some err)))
  /\ (NewSession w = None ->
      (forall key,
          fullPath = "/" ++ bucket (s3 p) ++ "/" ++ key ->
          trace (requestInfo w p fullPath)
          = [ENewSession; EListObjectsV2 (bucket (s3 p)) 1 key])
      /\ (Contains fullPath ("/" ++ bucket (s3 p) ++ "/") = false ->
          trace (requestInfo w p fullPath)
          = [ENewSession; EListObjectsV2 (bucket (s3 p)) 1 fullPath]))
  /\ (forall value size err,
         outcome (requestInfo w p fullPath) = Ret (value, size, err) ->
         noByte (ascii_of_nat 34) value = true).
Proof.
  split; [|split].
  - intros err HS. unfold requestInfo. now rewrite HS.
  - intros HS. rewrite requestInfo_calls, HS. split.
    + intros key ->.
      change ("/" ++ bucket (s3 p) ++ "/" ++ key)
        with ("/" ++ bucket (s3 p) ++ String slash key).
      now rewrite bucket_path, Replace1_prefix.
    + intros HC. now rewrite (Replace1_absent _ _ HC).
  - intros value size err. apply requestInfo_noquote.
Qed.

Lemma requestInfo_lookup_witness :
  trace (requestInfo okWorld inboxProxy "/inbox/alice/data.bam")
  = [ENewSession; EListObjectsV2 "inbox" 1 "alice/data.bam"]
  /\ noByte (ascii_of_nat 34) "9b2cf535f27731c974343645a3985328" = true.
Proof.
  destruct (requestInfo_lookup okWorld inboxProxy "/inbox/alice/data.bam")
    as (_ & H1 & H2).
  split.
  - exact (proj1 (H1 eq_refl) "alice/data.bam" eq_refl).
  - exact (H2 "9b2cf535f27731c974343645a3985328" 42%Z None eq_refl).
Defined.

(** X15.  The event builder of [proxy.go]: without a second path segment
    it panics before any call to the backend; it never returns an error
    and never waits; the event it returns is named [upload] whatever the
    method of the request, carries the path as it is, the size of the
    lookup, and one [md5] checksum, which has no double quote. *)
Theorem event_builder_cases (w : World) (p : Proxy) (r : Request) :
  (FindStringSubmatch reEvent (Path (Url r)) = None ->
   CreateMessageFromRequest w p r = ([], Panic))
  /\ outcome (CreateMessageFromRequest w p r) <> Block
  /\ (forall ev err,
         outcome (CreateMessageFromRequest w p r) = Ret (ev, err) ->
         err = None
         /\ Operation ev = "upload"
         /\ Filepath ev = Path (Url r)
         /\ index1 (FindStringSubmatch reEvent (Path (Url r))) = Ret (Username ev)
         /\ exists value,
             EncodedChecksum ev = [mkChecksum "md5" value]
             /\ noByte (ascii_of_nat 34) value = true
             /\ outcome (requestInfo w p (Path (Url r))) = Ret (value, Filesize ev, None)).
Proof.
  pose proof (CreateMessageFromRequest_outcome w p r) as HO.
  split; [|split].
  - intros HF. unfold CreateMessageFromRequest. now rewrite HF.
  - intros HB. now rewrite HB in HO.
  - intros ev err HE. rewrite HE in HO.
    destruct HO as (-> & username & value & HU & HR & Hev).
    split; [reflexivity|]. rewrite Hev at 1 2 3. cbn [Operation Filepath].
    split; [reflexivity|]. split; [reflexivity|].
    split; [rewrite Hev; exact HU|].
    exists value. split; [now rewrite Hev|]. split; [|exact HR].
    exact (requestInfo_noquote _ _ _ _ _ _ HR).
Qed.

Lemma event_builder_cases_witness :
  CreateMessageFromRequest okWorld inboxProxy postRoot = ([], Panic)
  /\ outcome (CreateMessageFromRequest okWorld inboxProxy putObject)
     = Ret (uploadEvent, None)
  /\ Filepath uploadEvent = "/inbox/alice/data.bam".
Proof.
  destruct (event_builder_cases okWorld inboxProxy postRoot) as (H1 & _).
  destruct (event_builder_cases okWorld inboxProxy putObject) as (_ & _ & H2).
  split; [exact (H1 eq_refl)|]. split; [reflexivity|].
  exact (proj1 (proj2 (proj2 (H2 uploadEvent None eq_refl)))).
Defined.

(* ================================================================== *)
(** * The events a run announces                                      *)
(* ================================================================== *)



(* ================================================================== *)
(** * The header-based event builder                                  *)
(* ================================================================== *)

(** X17.  The event builder of [main.go].  The content length is parsed
    first: without the header the builder returns an error, whatever the
    path and the method.  With a content length, the username is taken
    next, before the method is looked at: a path of slashes only makes
    the builder panic, for every method.  With both, a PUT gives an
    [upload] and a POST a [multipart-upload], with the first segment of
    the path, the path, the length and the [sha256] digest of the header;
    any other method gives the error.  An error never comes with a filled
    event. *)
Theorem header_event_cases (r : Request) :
  (Header_Get (ReqHeader r) "Content-Length" = "" ->
   exists err,
     Main.CreateMessageFromRequest r
     = Ret (Main.zeroEvent, Some ("can't parse content-length: " ++ err)))
  /\ (forall n,
         (0 <= n < 2 ^ 63)%Z ->
         Header_Get (ReqHeader r) "Content-Length" = decimal n ->
         (onlyByte slash (Path (Url r)) = true ->
          Main.CreateMessageFromRequest r = Panic)
         /\ (forall u rest,
                u <> "" -> noByte slash u = true ->
                Path (Url r) = String slash (u ++ String slash rest) ->
                let filled (operation : string) :=
                  Ret (Main.mkEvent operation u (Path (Url r)) n
                         (mkChecksum "sha256"
                            (Header_Get (ReqHeader r) "X-Amz-Content-Sha256")),
                       None) in
                Main.CreateMessageFromRequest r
                = if String.eqb (Method r) "PUT" then filled "upload"
                  else if String.eqb (Method r) "POST" then filled "multipart-upload"
                  else Ret (Main.zeroEvent, Some "upload method has to be POST or PUT")))
  /\ (forall ev err,
         Main.CreateMessageFromRequest r = Ret (ev, Some err) -> ev = Main.zeroEvent).
Proof.
  unfold Main.CreateMessageFromRequest. split; [|split].
  - intros ->. now eexists.
  - intros n Hn ->. rewrite (ParseInt_decimal n) by lia.
    destruct (Z.leb_spec (2 ^ 63) n) as [|_]; [lia|]. split.
    + intros HS. now rewrite (reRewriter_no_segment _ HS).
    + intros u rest Hu Hus HP. cbv zeta.
      rewrite HP at 1. rewrite (reRewriter_leading_segment u rest Hu Hus).
      reflexivity.
  - intros ev err.
    destruct (Strconv.ParseInt _) as [n [e|]]; [now intros [= <- _]|].
    destruct (index1 _); try discriminate.
    destruct (String.eqb (Method r) MethodPut); [discriminate|].
    destruct (String.eqb (Method r) MethodPost); [discriminate|].
    now intros [= <- _].
Qed.

Lemma header_event_cases_witness :
  Main.CreateMessageFromRequest (putWithHeaders clientHeaders)
  = Ret (Main.mkEvent "upload" "alice" "/alice/data.bam" 7
           (mkChecksum "sha256"
              "2c26b46b68ffc68ff99b453c1d30413413422d706483bfa0f98a5e886266e7ae"),
         None)
  /\ exists err,
      Main.CreateMessageFromRequest getObject
      = Ret (Main.zeroEvent, Some ("can't parse content-length: " ++ err)).
Proof.
  destruct (header_event_cases (putWithHeaders clientHeaders)) as (_ & H & _).
  destruct (H 7%Z ltac:(lia) eq_refl) as (_ & H').
  split.
  - refine (H' "alice" "data.bam" _ eq_refl eq_refl). discriminate.
  - exact (proj1 (header_event_cases getObject) eq_refl).
Defined.

(* ================================================================== *)
(** * The messenger, from its start to a publish                      *)
(* ================================================================== *)

(** Once the channel is in confirm mode, the third call of [SendMessage]
    is the publish, to the exchange and under the routing key of the
    messenger, and at most a receive follows. *)
Lemma SendMessage_calls (m : AMQPMessenger) (message : Event) :
  ConfirmError (channel m) = None ->
  trace (SendMessage m message)
  = ([EConfirm; ENotifyPublish;
      EPublish (exchange m) (routingKey m) false false
               (mkPublishing "UTF-8" "application/json" Transient
                             (NewRandom (channel m)) 0 (Marshal message))]
     ++ match NextConfirmation (channel m) with
        | Some c => [EReceive c]
        | None => []
        end)%list.
Proof.
  intros HC. unfold SendMessage, confirmOne, receive. rewrite HC.
  destruct (NextConfirmation (channel m)) as [c|]; [|reflexivity].
  cbn. now destruct (Ack c).
Qed.

(** How [NewAMQPMessenger] ends. *)
Lemma NewAMQPMessenger_outcome (b : Startup.Broker) (c : Startup.BrokerConfig) :
  snd (Startup.NewAMQPMessenger b c)
  = match Startup.dialError b, Startup.channelError b with
    | Some _, _ | None, Some _ => Panic
    | None, None =>
        match Startup.confirmError b, Startup.declareError b with
        | Some _, _ | None, Some _ => Exit
        | None, None =>
            Ret (mkAMQPMessenger (Startup.opened b) (Startup.exchange c)
                                 (Startup.routingKey c))
        end
    end.
Proof.
  unfold Startup.NewAMQPMessenger.
  destruct (Startup.dialError b), (Startup.channelError b),
    (Startup.confirmError b), (Startup.declareError b); reflexivity.
Qed.

(** X18.  [NewAMQPMessenger] dials first, over TLS exactly when the
    configuration asks for it, at the address [buildMqURI] assembles from
    the configuration under the scheme that goes with it.  It returns a
    messenger exactly when the dial, the channel, the confirm mode and the
    declaration all succeed; the exchange has then been declared as a
    durable topic exchange under the configured name, and the messenger
    publishes to that exchange under the configured routing key.  The
    exchange is not declared before the channel is in confirm mode.  The
    start panics exactly when the dial or the channel fails. *)
Theorem NewAMQPMessenger_cases (b : Startup.Broker) (c : Startup.BrokerConfig) :
  let run := Startup.NewAMQPMessenger b c in
  let uri := (if Startup.ssl c then "amqps://" else "amqp://")
             ++ Startup.user c ++ ":" ++ Startup.password c ++ "@"
             ++ Startup.host c ++ ":" ++ Startup.port c ++ Startup.vhost c in
  let declare := Startup.ExchangeDeclare (Startup.exchange c) "topic"
                                         true false false false in
  (exists rest,
      fst run = (if Startup.ssl c then Startup.DialTLS uri else Startup.Dial uri) :: rest)
  /\ (forall m,
         snd run = Ret m <->
         Startup.dialError b = None /\ Startup.channelError b = None
         /\ Startup.confirmError b = None /\ Startup.declareError b = None
         /\ m = mkAMQPMessenger (Startup.opened b) (Startup.exchange c)
                                (Startup.routingKey c))
  /\ (forall m, snd run = Ret m -> In declare (fst run))
  /\ (In declare (fst run) ->
      Startup.dialError b = None /\ Startup.channelError b = None
      /\ Startup.confirmError b = None)
  /\ (snd run = Panic <->
      Startup.dialError b <> None \/ Startup.channelError b <> None)
  /\ (forall m ev,
         snd run = Ret m -> ConfirmError (Startup.opened b) = None ->
         exists msg t1 t2,
           trace (SendMessage m ev)
           = (t1 ++ EPublish (Startup.exchange c) (Startup.routingKey c)
                             false false msg :: t2)%list
           /\ PubBody msg = Marshal ev).
Proof.
  cbv zeta. rewrite NewAMQPMessenger_outcome.
  split; [|split; [|split; [|split; [|split]]]].
  - unfold Startup.NewAMQPMessenger, Startup.buildMqURI.
    destruct (Startup.ssl c), (Startup.dialError b), (Startup.channelError b),
      (Startup.confirmError b), (Startup.declareError b); now eexists.
  - intros m.
    destruct (Startup.dialError b), (Startup.channelError b),
      (Startup.confirmError b), (Startup.declareError b);
      (split; [try discriminate; intros [= <-]; repeat split
              | intros (H1 & H2 & H3 & H4 & ->); try discriminate; reflexivity]).
  - intros m. unfold Startup.NewAMQPMessenger.
    destruct (Startup.dialError b), (Startup.channelError b),
      (Startup.confirmError b), (Startup.declareError b);
      try discriminate. intros _. cbn. tauto.
  - unfold Startup.NewAMQPMessenger.
    destruct (Startup.ssl c), (Startup.dialError b), (Startup.channelError b),
      (Startup.confirmError b), (Startup.declareError b);
      cbn; intros H;
      repeat (destruct H as [H|H]; try discriminate); try (now destruct H);
      repeat split.
  - destruct (Startup.dialError b), (Startup.channelError b),
      (Startup.confirmError b), (Startup.declareError b);
      (split; [try discriminate; intros _; ((left; discriminate) || (right; discriminate))
              | intros [H|H]; congruence]).
  - intros m ev.
    destruct (Startup.dialError b), (Startup.channelError b),
      (Startup.confirmError b), (Startup.declareError b); try discriminate.
    intros [= <-] HC. rewrite SendMessage_calls by exact HC.
    cbn [channel exchange routingKey].
    eexists. exists [EConfirm; ENotifyPublish]. eexists.
    split; [reflexivity | reflexivity].
Qed.

Lemma NewAMQPMessenger_cases_witness :
  snd (Startup.NewAMQPMessenger readyBroker brokerConfig)
  = Ret (mkAMQPMessenger ackChannel "localega.v1" "files.inbox")
  /\ In (Startup.ExchangeDeclare "localega.v1" "topic" true false false false)
        (fst (Startup.NewAMQPMessenger readyBroker brokerConfig)).
Proof.
  destruct (NewAMQPMessenger_cases readyBroker brokerConfig) as (_ & H1 & H2 & _).
  split.
  - apply H1. repeat split; reflexivity.
  - exact (H2 _ eq_refl).
Defined.

(** X19.  The protocol of [SendMessage].  When the channel cannot be put
    in confirm mode the process ends with nothing published.  Otherwise
    one message is published, transient, as JSON, and [SendMessage] waits
    for one confirmation: without one it does not return, and with one it
    returns the error of the publish, the same for an acknowledgment and
    for a negative one. *)
Theorem SendMessage_protocol (m : AMQPMessenger) (message : Event) :
  (forall e,
      ConfirmError (channel m) = Some e ->
      outcome (SendMessage m message) = Exit
      /\ published (trace (SendMessage m message)) = []
      /\ trace (SendMessage m message)
         = [EConfirm; ELogFatal ("channel could not be put into confirm mode: " ++ e)])
  /\ (ConfirmError (channel m) = None ->
      (exists msg,
          published (trace (SendMessage m message)) = [msg]
          /\ PubBody msg = Marshal message
          /\ DeliveryMode msg = Transient
          /\ ContentType msg = "application/json"
          /\ CorrelationId msg = NewRandom (channel m))
      /\ (NextConfirmation (channel m) = None ->
          outcome (SendMessage m message) = Block)
      /\ (forall tag ack,
             NextConfirmation (channel m) = Some (mkConfirmation tag ack) ->
             outcome (SendMessage m message) = Ret (PublishError (channel m))
             /\ exists t,
                 trace (SendMessage m message)
                 = (t ++ [EReceive (mkConfirmation tag ack)])%list)).
Proof.
  split.
  - intros e HC. unfold SendMessage. rewrite HC. repeat split.
  - intros HC. split; [|split].
    + eexists. split; [now apply SendMessage_published|]. repeat split.
    + intros HN. now apply SendMessage_blocks.
    + intros tag ack HN.
      rewrite (SendMessage_run m message _ HC HN). split; [reflexivity|].
      now exists [EConfirm; ENotifyPublish;
                  EPublish (exchange m) (routingKey m) false false
                           (mkPublishing "UTF-8" "application/json" Transient
                                         (NewRandom (channel m)) 0 (Marshal message))].
Qed.

Lemma SendMessage_protocol_witness :
  outcome (SendMessage ackMessenger uploadEvent) = Ret None
  /\ outcome (SendMessage nackMessenger uploadEvent) = Ret None.
Proof.
  split.
  - exact (proj1 (proj2 (proj2 (proj2 (SendMessage_protocol ackMessenger uploadEvent)
                                   eq_refl))
                   1%Z true eq_refl)).
  - exact (proj1 (proj2 (proj2 (proj2 (SendMessage_protocol nackMessenger uploadEvent)
                                   eq_refl))
                   1%Z false eq_refl)).
Defined.
